(** * errudite.processor.spacy_annotator

    A shallow embedding of [errudite/processor/spacy_annotator.py]: the two
    custom tokenizers, the stop-word filter, the two installation checks and
    the model loader of [SpacyAnnotator], with the properties of the prose
    specification stated and proved (or refuted) over them.

    Python strings are [string]s, lists are [list]s, Python sets are [gset]s,
    and the objects a caller can alias live in an explicit heap.  spaCy, the
    package registry and the file system are outside the module: they enter
    as an interface record whose fields the code calls. *)

From Stdlib Require Import Ascii String.
From stdpp Require Import base option list gmap strings pretty.

Local Open Scope string_scope.

(** ** Python built-ins used by the module *)

Module PyStr.

(** [str.lower()], on the ASCII range ([A-Z] to [a-z]); distribution names
    are ASCII, other bytes are left as they are. *)
Definition lower_char (c : ascii) : ascii :=
  let n := nat_of_ascii c in
  if (65 <=? n)%nat && (n <=? 90)%nat then ascii_of_nat (n + 32) else c.

Fixpoint lower (s : string) : string :=
  match s with
  | EmptyString => EmptyString
  | String c s' => String (lower_char c) (lower s')
  end.

(** [s.replace(old, new)] for one-character [old] and [new]. *)
Fixpoint replace (old new : ascii) (s : string) : string :=
  match s with
  | EmptyString => EmptyString
  | String c s' => String (if Ascii.eqb c old then new else c) (replace old new s')
  end.

(** [s.count(c)] for a one-character [c]. *)
Fixpoint count (c : ascii) (s : string) : nat :=
  match s with
  | EmptyString => 0
  | String a s' => (if Ascii.eqb a c then 1 else 0) + count c s'
  end.

(** [s.split(sep)] for a one-character separator: every occurrence of
    [sep] ends a segment, so the result is never empty and [''.split(sep)]
    is [['']]. *)
Fixpoint split (sep : ascii) (s : string) : list string :=
  match s with
  | EmptyString => [EmptyString]
  | String c s' =>
      if Ascii.eqb c sep then EmptyString :: split sep s'
      else match split sep s' with
           | [] => [String c EmptyString]
           | w :: ws => String c w :: ws
           end
  end.

(** [sub in s] on strings: [sub] occurs in [s] as a contiguous substring. *)
Fixpoint contains (sub s : string) : bool :=
  String.prefix sub s ||
  match s with
  | EmptyString => false
  | String _ s' => contains sub s'
  end.

(** [sep.join(l)]. *)
Definition join (sep : string) (l : list string) : string := String.concat sep l.

(** [l * n] on lists: [n] copies of [l], concatenated. *)
Fixpoint list_mul {A} (l : list A) (n : nat) : list A :=
  match n with
  | O => []
  | S n' => l ++ list_mul l n'
  end.

(** [l[0]]: [None] stands for the [IndexError] of an empty list. *)
Definition item0 {A} (l : list A) : option A := head l.

(** [l or []] for an optional list: [None] and the empty list give [[]]. *)
Definition or_empty {A} (l : option (list A)) : list A :=
  match l with
  | Some (x :: l') => x :: l'
  | _ => []
  end.

(** Truthiness of a string and of a list. *)
Definition str_truthy (s : string) : bool := negb (String.eqb s "").
Definition list_truthy {A} (l : list A) : bool :=
  match l with [] => false | _ :: _ => true end.

End PyStr.

(** ** Exceptions and outcomes

    [OSError] stands for the class and its subclasses ([IOError] is its
    alias); [Exception] for every other subclass of [Exception], with the
    class name kept.  A call returns, raises, or diverges (the loader's
    recursion is unbounded). *)

Inductive exn :=
| OSError (msg : string)
| Exception (cls msg : string).

Definition isinstance_OSError (e : exn) : bool :=
  match e with OSError _ => true | Exception _ _ => false end.

Definition isinstance_Exception (e : exn) : bool := true.

Inductive outcome (A : Type) :=
| Return (a : A)
| Raise (e : exn)
| Diverge.
Arguments Return {A} a.
Arguments Raise {A} e.
Arguments Diverge {A}.

Definition raises {A} (o : outcome A) : Prop :=
  match o with Raise _ => True | _ => False end.

(** ** The custom tokenizers

    A spaCy document is kept as what it was built from; its tokens are the
    words paired with their trailing-space flags. *)

Record Doc (Vocab : Type) := mkDoc {
  doc_vocab : Vocab;
  doc_words : list string;
  doc_spaces : list bool
}.
Arguments mkDoc {Vocab} _ _ _.
Arguments doc_vocab {Vocab} _.
Arguments doc_words {Vocab} _.
Arguments doc_spaces {Vocab} _.

Definition doc_tokens {Vocab} (d : Doc Vocab) : list (string * bool) :=
  zip (doc_words d) (doc_spaces d).

(** The position of the first empty word, counting from [i]. *)
Fixpoint first_empty (words : list string) (i : nat) : option nat :=
  match words with
  | [] => None
  | w :: ws => if String.eqb w "" then Some i else first_empty ws (S i)
  end.

(** [Doc(vocab, words=words, spaces=spaces)], spaCy's constructor: it raises
    [ValueError] when the two lists differ in length (E027), and when a word
    is the empty string (E031, at the first such word); otherwise the
    document has one token per word. *)
Definition Doc_init {Vocab} (v : Vocab) (words : list string) (spaces : list bool)
  : outcome (Doc Vocab) :=
  if negb (Nat.eqb (length spaces) (length words))
  then Raise (Exception "ValueError"
                "[E027] Arguments 'words' and 'spaces' should be sequences of the same length")
  else match first_empty words 0 with
       | Some i =>
           Raise (Exception "ValueError"
                    ("[E031] Invalid token: empty string ('') at position " ++ pretty i ++ "."))
       | None => Return (mkDoc v words spaces)
       end.

Record NoOpTokenizer (Vocab : Type) := mkNoOpTokenizer { noop_vocab : Vocab }.
Arguments mkNoOpTokenizer {Vocab} _.
Arguments noop_vocab {Vocab} _.

Record WhitespaceTokenizer (Vocab : Type) := mkWhitespaceTokenizer { ws_vocab : Vocab }.
Arguments mkWhitespaceTokenizer {Vocab} _.
Arguments ws_vocab {Vocab} _.

(** [NoOpTokenizer.__call__]: the input is the list of words itself. *)
Definition NoOpTokenizer_call {Vocab} (self : NoOpTokenizer Vocab) (text : list string)
  : outcome (Doc Vocab) :=
  let words := text in
  let spaces := PyStr.list_mul [true] (length words) in
  Doc_init (noop_vocab self) words spaces.

(** [WhitespaceTokenizer.__call__]. *)
Definition WhitespaceTokenizer_call {Vocab} (self : WhitespaceTokenizer Vocab) (text : string)
  : outcome (Doc Vocab) :=
  let words := PyStr.split " " text in
  let spaces := PyStr.list_mul [true] (length words) in
  Doc_init (ws_vocab self) words spaces.

(** ** Annotated tokens, pipelines and the heap *)

(** The attributes of a spaCy [Token] that the module reads. *)
Record Token := mkToken {
  text : string;
  lemma_ : string;
  is_punct : bool
}.

Inductive Tokenizer (Vocab : Type) :=
| SpacyTokenizer
| UseWhitespace (t : WhitespaceTokenizer Vocab)
| UseNoOp (t : NoOpTokenizer Vocab).
Arguments SpacyTokenizer {Vocab}.
Arguments UseWhitespace {Vocab} t.
Arguments UseNoOp {Vocab} t.

(** The loaded pipeline ([spacy.language.Language]): the fields the module
    reads or assigns. *)
Record Language (Vocab : Type) := mkLanguage {
  meta_name : string;
  vocab : Vocab;
  tokenizer : Tokenizer Vocab
}.
Arguments mkLanguage {Vocab} _ _ _.
Arguments meta_name {Vocab} _.
Arguments vocab {Vocab} _.
Arguments tokenizer {Vocab} _.

Definition Path := string.

(** Calls that leave the module, in the order they are made. *)
Inductive event :=
| EvLoad (name : string) (disable : list string)
| EvWarning (msg : string)
| EvDownload (name : string)
| EvGetPackagePath (name : string)
| EvLink (origin link_name : string) (model_path : Path)
| EvCall (sentence : string)
| EvLoadCaches (path : Path)
| EvFromBytes (data : string).

(** What the module calls in spaCy and in [..utils], over a world [W] that
    the calls may change.  [load_caches] and [build_cached_path] are
    imported from [errudite.utils]; like spaCy's functions they are taken as
    given. *)
Record Spacy (Vocab W : Type) := mkSpacy {
  spacy_load : string → list string → W → outcome (Language Vocab) * W;
  spacy_download : string → W → outcome unit * W;
  get_package_path : string → W → outcome Path * W;
  link : string → string → Path → W → outcome unit * W;
  nlp_call : Language Vocab → string → W → outcome (list Token) * W;
  build_cached_path : string → Path;
  load_caches : Path → W → outcome (option string) * W;
  from_bytes : Vocab → string → W → outcome Vocab * W
}.
Arguments spacy_load {Vocab W} _ _ _ _.
Arguments spacy_download {Vocab W} _ _ _.
Arguments get_package_path {Vocab W} _ _ _.
Arguments link {Vocab W} _ _ _ _ _.
Arguments nlp_call {Vocab W} _ _ _ _.
Arguments build_cached_path {Vocab W} _ _.
Arguments load_caches {Vocab W} _ _ _.
Arguments from_bytes {Vocab W} _ _ _ _.

Definition loc := positive.

(** The state a call runs in: the outside world, the calls made so far, and
    the heap of token sequences (lists and documents) that callers hold
    references to. *)
Record State (W : Type) := mkState {
  world : W;
  trace : list event;
  heap : gmap loc (list Token)
}.
Arguments mkState {W} _ _ _.
Arguments world {W} _.
Arguments trace {W} _.
Arguments heap {W} _.

Definition M (W A : Type) : Type := State W → outcome A * State W.

Definition ret {W A} (a : A) : M W A := λ s, (Return a, s).

Definition bind {W A B} (m : M W A) (k : A → M W B) : M W B :=
  λ s, match m s with
       | (Return a, s') => k a s'
       | (Raise e, s') => (Raise e, s')
       | (Diverge, s') => (Diverge, s')
       end.

Definition raise {W A} (e : exn) : M W A := λ s, (Raise e, s).

Definition diverge {W A} : M W A := λ s, (Diverge, s).

(** [try: body / except C: handler], with [catches] the test [isinstance(e, C)]. *)
Definition try_except {W A} (body : M W A) (catches : exn → bool) (handler : exn → M W A)
  : M W A :=
  λ s, match body s with
       | (Raise e, s') => if catches e then handler e s' else (Raise e, s')
       | r => r
       end.

(** An outside call: recorded, then run on the world. *)
Definition ext {W A} (ev : event) (f : W → outcome A * W) : M W A :=
  λ s, let '(r, w') := f (world s) in
       (r, mkState w' (trace s ++ [ev]) (heap s)).

(** [logger.warning(msg)]. *)
Definition warning {W} (msg : string) : M W unit :=
  λ s, (Return tt, mkState (world s) (trace s ++ [EvWarning msg]) (heap s)).

(** A new object on the heap. *)
Definition alloc {W} (toks : list Token) : M W loc :=
  λ s, let l := fresh (dom (heap s)) in
       (Return l, mkState (world s) (trace s) (<[l := toks]> (heap s))).

(** Reading through a reference; a reference is never dangling in Python,
    the [TypeError] only makes the function total. *)
Definition deref {W} (l : loc) : M W (list Token) :=
  λ s, match heap s !! l with
       | Some toks => (Return toks, s)
       | None => (Raise (Exception "TypeError" "not a token sequence"), s)
       end.

Declare Scope py_scope.
Delimit Scope py_scope with py.
Notation "x <- m ;; k" := (bind m (λ x, k))
  (at level 100, m at next level, right associativity) : py_scope.
Notation "m ;;; k" := (bind m (λ _, k))
  (at level 100, right associativity) : py_scope.

(** ** class SpacyAnnotator *)

Module SpacyAnnotator.

(** The instance: [self.model]. *)
Record self_t (Vocab : Type) := mkSelf { model : Language Vocab }.
Arguments mkSelf {Vocab} _.
Arguments model {Vocab} _.

(** *** The installation checks

    [is_package] reads [pkg_resources.working_set.by_key.keys()], a dict view
    in insertion order, here the argument [packages].  A Python function
    that falls off its end returns [None]: the result is [Some true],
    [Some false] or [None]. *)

Definition is_package (packages : list string) (name : string) : option bool :=
  let name := PyStr.lower name in
  (* for package in packages: *)
  match packages with
  | [] => None
  | package :: _ =>
      if String.eqb (PyStr.replace "-" "_" (PyStr.lower package)) name
      then Some true   (* line 139: return True *)
      else Some false  (* line 140: return False, in the loop body: no second turn *)
  end.

(** Truthiness of what [is_package] returns. *)
Definition truthy (v : option bool) : bool :=
  match v with Some true => true | _ => false end.

(** The part of the file system [model_installed] looks at:
    [util.get_data_path()] ([None] when spaCy finds no data directory),
    [Path.exists], whether a path is a directory, and the entries of a
    directory. *)
Record FileSystem := mkFS {
  get_data_path : option Path;
  exists_ : Path → bool;
  is_dir : Path → bool;
  iterdir : Path → list Path
}.

(** [Path.iterdir()]: the entries of a directory; on a path that is not a
    directory it raises [NotADirectoryError], an [OSError]. *)
Definition Path_iterdir (fs : FileSystem) (p : Path) : outcome (list Path) :=
  if is_dir fs p
  then Return (iterdir fs p)
  else Raise (OSError ("[Errno 20] Not a directory: '" ++ p ++ "'")).

(** [PurePath.name]: the final component. *)
Definition Path_name (p : Path) : string := default "" (last (PyStr.split "/" p)).

(** [str(data_path)]. *)
Definition str_of (p : option Path) : string := default "None" p.

Definition model_installed (fs : FileSystem) (packages : list string) (name : string)
  : outcome bool :=
  let data_path := get_data_path fs in
  match data_path with
  | None => Raise (OSError ("Can't find spaCy data path: " ++ str_of data_path))
  | Some d =>
      if negb (exists_ fs d)
      then Raise (OSError ("Can't find spaCy data path: " ++ str_of data_path))
      else
        match Path_iterdir fs d with
        | Return entries =>
            if bool_decide (name ∈ (list_to_set (Path_name <$> entries) : gset string))
            then Return true
            else if truthy (is_package packages name) then Return true
            else if exists_ fs name then Return true
            else Return false
        | Raise e => Raise e
        | Diverge => Diverge
        end
  end.

Section Methods.

Context {Vocab W : Type}.
Variable E : Spacy Vocab W.

(** [STOP_WORDS_semantic], imported from [.ling_consts]: a fixed collection
    of strings, taken as given. *)
Variable STOP_WORDS : gset string.

Local Open Scope py_scope.

(** *** load_lang_model *)

(** Lines 184-195, the start of the [except OSError] handler: the warning,
    the download and the linking workaround. *)
Definition download_and_link (lang : string) : M W unit :=
  warning ("Spacy models '" ++ lang ++ "' not found.  Downloading and installing.") ;;;
  ext (EvDownload lang) (spacy_download E lang) ;;;
  package_path <- ext (EvGetPackagePath lang) (get_package_path E lang) ;;
  ext (EvLink lang lang package_path) (link E lang lang package_path).

(** Lines 181-196: the path of an identifier without the marker. *)
Definition load_or_download (lang : string) (disable : list string) : M W (Language Vocab) :=
  try_except
    (ext (EvLoad lang disable) (spacy_load E lang disable))
    isinstance_OSError
    (λ _,
      download_and_link lang ;;;
      ext (EvLoad lang disable) (spacy_load E lang disable)).

(** The recursion of line 180 has no bound in the source; [fuel] bounds the
    depth of calls, and a call with none left diverges. *)
Fixpoint load_lang_model (fuel : nat) (lang : string) (disable : list string)
  : M W (Language Vocab) :=
  match fuel with
  | O => diverge
  | S fuel' =>
      if PyStr.contains "coref" lang then
        try_except
          (ext (EvLoad lang disable) (spacy_load E lang disable))
          isinstance_Exception
          (λ e,
            match PyStr.item0 (PyStr.split "_" lang) with
            | Some base => load_lang_model fuel' base disable
            | None => raise (Exception "IndexError" "list index out of range")
            end)
      else load_or_download lang disable
  end.

(** *** load, __init__ *)

Definition set_vocab (self : self_t Vocab) (v : Vocab) : self_t Vocab :=
  mkSelf (mkLanguage (meta_name (model self)) v (tokenizer (model self))).

Definition set_tokenizer (self : self_t Vocab) (t : Tokenizer Vocab) : self_t Vocab :=
  mkSelf (mkLanguage (meta_name (model self)) (vocab (model self)) t).

(** [e.args] of the caught exception, as logged. *)
Definition exn_args (e : exn) : string :=
  match e with OSError msg => msg | Exception _ msg => msg end.

Definition load (self : self_t Vocab) : M W (self_t Vocab) :=
  let path := build_cached_path E "vocab.pkl" in
  let model_vocab := vocab (model self) in
  vocab <- try_except
             (ext (EvLoadCaches path) (load_caches E path))
             isinstance_Exception
             (λ e, warning (exn_args e) ;;; ret None) ;;
  match vocab with
  | Some data =>
      if PyStr.str_truthy data
      then v <- ext (EvFromBytes data) (from_bytes E model_vocab data) ;;
           ret (set_vocab self v)
      else ret self
  | None => ret self
  end.

(** [dump] calls [vocab.to_bytes()] of spaCy and [dump_caches] of [..utils],
    both taken as given; it acts on the world alone. *)
Variable to_bytes : Vocab → string.
Variable dump_caches : Path → string → W → outcome unit * W.

Definition dump (self : self_t Vocab) : W → outcome unit * W :=
  dump_caches (build_cached_path E "vocab.pkl") (to_bytes (vocab (model self))).

Definition __init__ (fuel : nat) (disable : option (list string))
    (pre_tokenized use_whitespace : bool) (lang : string) : M W (self_t Vocab) :=
  let disable := PyStr.or_empty disable in
  nlp <- load_lang_model fuel lang disable ;;
  self <- load (mkSelf nlp) ;;
  let self :=
    if use_whitespace
    then set_tokenizer self (UseWhitespace (mkWhitespaceTokenizer (vocab (model self))))
    else self in
  let self :=
    if pre_tokenized
    then set_tokenizer self (UseNoOp (mkNoOpTokenizer (vocab (model self))))
    else self in
  ret self.

(** *** process_text, remove_stopwords *)

Definition process_text (self : self_t Vocab) (sentence : string) : M W (list Token) :=
  ext (EvCall sentence) (nlp_call E (model self) sentence).

(** [getattr(token, attr)] for the two attribute names that reach it. *)
Definition getattr (token : Token) (attr : string) : string :=
  if String.eqb attr "lemma_" then lemma_ token else text token.

(** The condition of the comprehension of lines 120-121. *)
Definition kept (token : Token) : bool :=
  negb (is_punct token)
  && bool_decide (text token ∉ STOP_WORDS)
  && bool_decide (lemma_ token ∉ STOP_WORDS).

(** The list comprehension: one pass over [tokens], appending to a new list. *)
Fixpoint comprehension (attr : string) (tokens : list Token) (acc : list string)
  : list string :=
  match tokens with
  | [] => acc
  | token :: rest =>
      if kept token
      then comprehension attr rest (acc ++ [getattr token attr])
      else comprehension attr rest acc
  end.

(** Truthiness of the [tokens] argument: [None], or a reference to a
    sequence that is truthy when it has an element. *)
Definition tokens_truthy (tokens : option loc) : M W bool :=
  match tokens with
  | None => ret false
  | Some l => toks <- deref l ;; ret (PyStr.list_truthy toks)
  end.

(** [tokens] is a reference: the caller's list when one is passed, a new
    object when the method rebinds the name. *)
Definition remove_stopwords (self : self_t Vocab) (sentence_str : option string)
    (tokens : option loc) (use_lemma : bool) : M W string :=
  t <- tokens_truthy tokens ;;
  tokens <- match t, sentence_str with
            | false, Some s =>
                if PyStr.str_truthy s
                then doc <- ext (EvCall s) (nlp_call E (model self) s) ;;
                     l <- alloc doc ;; ret (Some l)
                else l <- alloc [] ;; ret (Some l)
            | false, None => l <- alloc [] ;; ret (Some l)
            | true, _ => ret tokens
            end ;;
  let attr := if use_lemma then "lemma_" else "text" in
  items <- match tokens with
           | Some l => deref l
           | None => raise (Exception "TypeError" "'NoneType' object is not iterable")
           end ;;
  ret (PyStr.join " " (comprehension attr items [])).

End Methods.

End SpacyAnnotator.

(** ** A small world to run the code in

    A toy spaCy: a model loads when it is linked, a download needs the
    network, and the pipeline splits on spaces, lemmatizes by lower-casing
    and flags the usual punctuation marks. *)

Module Fixture.

Record world := mkWorld {
  installed : list string;
  downloaded : list string;
  online : bool
}.

Definition spacy_load (name : string) (disable : list string) (w : world)
  : outcome (Language unit) * world :=
  if bool_decide (name ∈ installed w)
  then (Return (mkLanguage name tt SpacyTokenizer), w)
  else (Raise (OSError ("[E050] Can't find model '" ++ name ++ "'.")), w).

Definition spacy_download (name : string) (w : world) : outcome unit * world :=
  if online w
  then (Return tt, mkWorld (installed w) (name :: downloaded w) (online w))
  else (Raise (Exception "RuntimeError" "download failed"), w).

Definition get_package_path (name : string) (w : world) : outcome Path * world :=
  if bool_decide (name ∈ downloaded w)
  then (Return ("site-packages/" ++ name), w)
  else (Raise (Exception "ModuleNotFoundError" ("No module named '" ++ name ++ "'")), w).

Definition link (origin link_name : string) (model_path : Path) (w : world)
  : outcome unit * world :=
  (Return tt, mkWorld (link_name :: installed w) (downloaded w) (online w)).

Definition annotate (word : string) : Token :=
  mkToken word (PyStr.lower word) (bool_decide (word ∈ [","; "."; "!"; "?"; ";"; ":"])).

Definition nlp_call (nlp : Language unit) (sentence : string) (w : world)
  : outcome (list Token) * world :=
  (Return (annotate <$> PyStr.split " " sentence), w).

Definition load_caches (path : Path) (w : world) : outcome (option string) * world :=
  (Raise (OSError ("No such file or directory: '" ++ path ++ "'")), w).

Definition from_bytes (v : unit) (data : string) (w : world) : outcome unit * world :=
  (Return v, w).

Definition spacy : Spacy unit world :=
  mkSpacy unit world spacy_load spacy_download get_package_path link nlp_call
    (λ name, "caches/" ++ name) load_caches from_bytes.

Definition STOP_WORDS : gset string := {[ "the"; "a"; "of" ]}.

(** Nothing linked, nothing called yet, an empty heap. *)
Definition start (online : bool) : State world :=
  mkState (mkWorld [] [] online) [] ∅.

(** A data directory holding one linked model. *)
Definition fs : SpacyAnnotator.FileSystem :=
  SpacyAnnotator.mkFS (Some "/usr/lib/spacy/data")
    (λ p, bool_decide (p ∈ ["/usr/lib/spacy/data"; "/usr/lib/spacy/data/en"; "/models/de"]))
    (λ p, bool_decide (p ∈ ["/usr/lib/spacy/data"; "/usr/lib/spacy/data/en"; "/models/de"]))
    (λ p, if String.eqb p "/usr/lib/spacy/data" then ["/usr/lib/spacy/data/en"] else []).

(** The same data directory with a regular file beside the linked model. *)
Definition fs_with_file : SpacyAnnotator.FileSystem :=
  SpacyAnnotator.mkFS (Some "/usr/lib/spacy/data")
    (λ p, bool_decide (p ∈ ["/usr/lib/spacy/data"; "/usr/lib/spacy/data/en";
                            "/usr/lib/spacy/data/README.md"]))
    (λ p, bool_decide (p ∈ ["/usr/lib/spacy/data"; "/usr/lib/spacy/data/en"]))
    (λ p, if String.eqb p "/usr/lib/spacy/data"
          then ["/usr/lib/spacy/data/en"; "/usr/lib/spacy/data/README.md"]
          else []).

(** A data path that is a regular file. *)
Definition fs_data_file : SpacyAnnotator.FileSystem :=
  SpacyAnnotator.mkFS (Some "/usr/lib/spacy/data")
    (λ p, bool_decide (p ∈ ["/usr/lib/spacy/data"]))
    (λ p, false)
    (λ p, []).

End Fixture.

(** ** The stop-word filter, as the specification words it

    A token is removed when its text is punctuation, or its text or its
    lemma is in the stop-word set; the chosen attribute of the others is
    joined with single spaces. *)

Definition removed (STOP_WORDS : gset string) (token : Token) : Prop :=
  is_punct token = true ∨ text token ∈ STOP_WORDS ∨ lemma_ token ∈ STOP_WORDS.

#[global] Instance removed_dec STOP_WORDS token : Decision (removed STOP_WORDS token).
Proof. unfold removed. apply _. Defined.

Definition chosen (use_lemma : bool) (token : Token) : string :=
  if use_lemma then lemma_ token else text token.

Definition stopwords_removed (STOP_WORDS : gset string) (use_lemma : bool)
    (toks : list Token) : string :=
  String.concat " " (chosen use_lemma <$> filter (λ t, ¬ removed STOP_WORDS t) toks).

(** A distribution name as [is_package] compares it. *)
Definition normalized (package : string) : string :=
  PyStr.replace "-" "_" (PyStr.lower package).

(** [tokens] is [None] or refers to an empty sequence. *)
Definition absent_or_empty (h : gmap loc (list Token)) (tokens : option loc) : Prop :=
  match tokens with
  | None => True
  | Some l => h !! l = Some []
  end.

(** Counting the calls of a trace. *)
Definition is_download (ev : event) : bool :=
  match ev with EvDownload _ => true | _ => false end.

Definition is_load (ev : event) : bool :=
  match ev with EvLoad _ _ => true | _ => false end.

Definition downloads (evs : list event) : nat := length (filter (λ ev, is_download ev = true) evs).
Definition loads (evs : list event) : nat := length (filter (λ ev, is_load ev = true) evs).

(** The state after the calls [evs], which moved the world to [w]. *)
Definition after {W} (s : State W) (w : W) (evs : list event) : State W :=
  mkState w (trace s ++ evs) (heap s).

(** ** A world with a cache directory

    The cache is a map from paths to bytes; a vocabulary is a string, written
    with a version header that [from_bytes] insists on; every model loads. *)

Module CacheFixture.

Definition to_bytes (v : string) : string := "v1:" ++ v.

Definition from_bytes (v : string) (data : string) (w : gmap string string)
  : outcome string * gmap string string :=
  match data with
  | String "v" (String "1" (String ":" rest)) => (Return rest, w)
  | _ => (Raise (Exception "ValueError" "not a vocabulary"), w)
  end.

Definition load_caches (path : Path) (w : gmap string string)
  : outcome (option string) * gmap string string :=
  match w !! path with
  | Some data => (Return (Some data), w)
  | None => (Raise (OSError ("No such file or directory: '" ++ path ++ "'")), w)
  end.

Definition dump_caches (path : Path) (data : string) (w : gmap string string)
  : outcome unit * gmap string string :=
  (Return tt, <[path := data]> w).

Definition spacy : Spacy string (gmap string string) :=
  mkSpacy string (gmap string string)
    (λ name disable w, (Return (mkLanguage name "" SpacyTokenizer), w))
    (λ name w, (Raise (Exception "RuntimeError" "download failed"), w))
    (λ name w, (Raise (Exception "ModuleNotFoundError" name), w))
    (λ origin link_name model_path w, (Return tt, w))
    (λ nlp sentence w, (Return (Fixture.annotate <$> PyStr.split " " sentence), w))
    (λ name, "caches/" ++ name) load_caches from_bytes.

(** An annotator whose vocabulary holds [v]. *)
Definition annotator (v : string) : SpacyAnnotator.self_t string :=
  SpacyAnnotator.mkSelf (mkLanguage "en_core_web_sm" v SpacyTokenizer).

(** A state over the cache [w]. *)
Definition on (w : gmap string string) : State (gmap string string) := mkState w [] ∅.

End CacheFixture.

(** What the loader may call: a load with the caller's [disable], a warning,
    and a download, a path lookup and a link under one name, of an identifier
    without the marker; never the pipeline or the cache. *)
Definition loader_event (disable : list string) (ev : event) : Prop :=
  match ev with
  | EvLoad _ d => d = disable
  | EvWarning _ => True
  | EvDownload name | EvGetPackagePath name => PyStr.contains "coref" name = false
  | EvLink origin link_name _ => origin = link_name ∧ PyStr.contains "coref" origin = false
  | EvCall _ | EvLoadCaches _ | EvFromBytes _ => False
  end.

(** * Properties *)

Local Open Scope list_scope.

(** ** Python built-ins *)

Module PyStrFacts.

Import PyStr.

Lemma split_nonempty sep s : split sep s ≠ [].
Proof.
  destruct s as [|c s]; simpl; [done|].
  destruct (Ascii.eqb c sep); [done|]. by destruct (split sep s).
Qed.

Lemma split_length sep s : length (split sep s) = count sep s + 1.
Proof.
  induction s as [|c s IH]; simpl; [done|].
  destruct (Ascii.eqb c sep); simpl; [by rewrite IH|].
  pose proof (split_nonempty sep s) as Hne.
  destruct (split sep s) as [|w ws]; [done|]. simpl in *. lia.
Qed.

Lemma join_cons sep w ws :
  ws ≠ [] → join sep (w :: ws) = (w ++ sep ++ join sep ws)%string.
Proof. by destruct ws. Qed.

Lemma join_split sep s : join (String sep EmptyString) (split sep s) = s.
Proof.
  induction s as [|c s IH]; simpl; [done|].
  pose proof (split_nonempty sep s) as Hne.
  destruct (Ascii.eqb_spec c sep) as [->|Hc].
  - rewrite join_cons by done. simpl. by rewrite IH.
  - destruct (split sep s) as [|w ws]; [done|].
    destruct ws as [|w' ws]; simpl in *; by rewrite <- IH.
Qed.

Lemma split_no_sep sep s : Forall (λ w, count sep w = 0) (split sep s).
Proof.
  induction s as [|c s IH]; simpl; [by repeat constructor|].
  destruct (Ascii.eqb_spec c sep) as [->|Hc]; [by constructor|].
  pose proof (split_nonempty sep s) as Hne.
  destruct (split sep s) as [|w ws]; [done|].
  inversion IH as [|? ? Hw Hws]; subst. constructor; [|done].
  simpl. destruct (Ascii.eqb_spec c sep); [done|]. by rewrite Hw.
Qed.

Lemma list_mul_singleton {A} (x : A) n : list_mul [x] n = replicate n x.
Proof. induction n as [|n IH]; simpl; [done|]. by rewrite IH. Qed.

End PyStrFacts.

(** ** The tokenizers *)

Lemma first_empty_None words i : first_empty words i = None ↔ "" ∉ words.
Proof.
  revert i. induction words as [|w ws IH]; intros i; simpl.
  - split; [intros _; apply not_elem_of_nil|done].
  - rewrite not_elem_of_cons. destruct (String.eqb_spec w "") as [->|Hw].
    + split; [done|]. by intros [? _].
    + rewrite IH. split; [by intros ?; split|by intros [_ ?]].
Qed.

Lemma length_list_mul_singleton {A} (x : A) n : length (PyStr.list_mul [x] n) = n.
Proof. by rewrite PyStrFacts.list_mul_singleton, length_replicate. Qed.

Lemma Doc_init_all_true {Vocab} (v : Vocab) words :
  "" ∉ words →
  Doc_init v words (PyStr.list_mul [true] (length words))
  = Return (mkDoc v words (PyStr.list_mul [true] (length words))).
Proof.
  intros Hw. unfold Doc_init. rewrite length_list_mul_singleton, Nat.eqb_refl. simpl.
  by rewrite (proj2 (first_empty_None words 0) Hw).
Qed.

Lemma Doc_init_empty_word {Vocab} (v : Vocab) words :
  "" ∈ words →
  ∃ msg, Doc_init v words (PyStr.list_mul [true] (length words))
         = Raise (Exception "ValueError" msg).
Proof.
  intros Hw. unfold Doc_init. rewrite length_list_mul_singleton, Nat.eqb_refl. simpl.
  destruct (first_empty words 0) as [i|] eqn:Hfirst; [by eexists|].
  by apply first_empty_None in Hfirst.
Qed.

Lemma zip_all_true (words : list string) :
  zip words (PyStr.list_mul [true] (length words)) = (λ w, (w, true)) <$> words.
Proof.
  rewrite PyStrFacts.list_mul_singleton.
  induction words as [|w ws IH]; simpl; [done|]. by rewrite IH.
Qed.

Lemma fst_pair_true (ws : list string) : ((λ w, (w, true)) <$> ws).*1 = ws.
Proof. induction ws as [|w ws IH]; [done|]. rewrite !fmap_cons. simpl. by f_equal. Qed.

(** A call of the pass-through tokenizer on words none of which is empty. *)
Lemma NoOpTokenizer_returns {Vocab} (self : NoOpTokenizer Vocab) (words : list string) :
  "" ∉ words →
  ∃ d, NoOpTokenizer_call self words = Return d
     ∧ doc_vocab d = noop_vocab self
     ∧ doc_tokens d = (λ w, (w, true)) <$> words.
Proof.
  intros Hw. unfold NoOpTokenizer_call. rewrite Doc_init_all_true by done.
  eexists. split_and!; [done..|]. apply zip_all_true.
Qed.

(** A call of the whitespace tokenizer on a text with no empty segment. *)
Lemma WhitespaceTokenizer_returns {Vocab} (self : WhitespaceTokenizer Vocab) (s : string) :
  "" ∉ PyStr.split " " s →
  ∃ d, WhitespaceTokenizer_call self s = Return d
     ∧ doc_vocab d = ws_vocab self
     ∧ doc_tokens d = (λ w, (w, true)) <$> PyStr.split " " s.
Proof.
  intros Hw. unfold WhitespaceTokenizer_call. rewrite Doc_init_all_true by done.
  eexists. split_and!; [done..|]. apply zip_all_true.
Qed.

(** C6 (amended).  On a sequence none of whose elements is the empty string,
    the pass-through tokenizer makes one token per element: as many tokens
    as elements, the [i]-th token carrying the [i]-th element, in the
    vocabulary of the tokenizer, and every token owning a trailing space.
    On a sequence with an empty string in it the call raises the
    [ValueError] of spaCy's constructor and makes no document. *)
Theorem NoOpTokenizer_one_token_per_element {Vocab}
    (self : NoOpTokenizer Vocab) (words : list string) :
  ("" ∉ words →
   ∃ d, NoOpTokenizer_call self words = Return d
      ∧ doc_vocab d = noop_vocab self
      ∧ length (doc_tokens d) = length words
      ∧ (∀ i, fst <$> doc_tokens d !! i = words !! i)
      ∧ Forall (λ t, t.2 = true) (doc_tokens d))
  ∧ ("" ∈ words →
     ∃ msg, NoOpTokenizer_call self words = Raise (Exception "ValueError" msg)).
Proof.
  split.
  - intros Hw. destruct (NoOpTokenizer_returns self words Hw) as (d & Hd & Hv & Ht).
    exists d. rewrite Ht. split_and!; [done..| | |].
    + by rewrite length_fmap.
    + intros i. rewrite list_lookup_fmap. by destruct (words !! i).
    + apply Forall_fmap, Forall_true. done.
  - intros Hw. by apply Doc_init_empty_word.
Qed.

Lemma NoOpTokenizer_one_token_per_element_witness :
  ∃ d, NoOpTokenizer_call (mkNoOpTokenizer tt) ["the"; "cat"; "sat"] = Return d
     ∧ doc_vocab d = tt
     ∧ length (doc_tokens d) = 3
     ∧ (∀ i, fst <$> doc_tokens d !! i = ["the"; "cat"; "sat"] !! i)
     ∧ Forall (λ t, t.2 = true) (doc_tokens d).
Proof.
  apply (proj1 (NoOpTokenizer_one_token_per_element (mkNoOpTokenizer tt) ["the"; "cat"; "sat"])).
  apply (bool_decide_eq_false_1 _). vm_compute. reflexivity.
Defined.

(** C6 (as stated, refuted).  On the three elements "a", "" and "b" the
    pass-through tokenizer makes no token at all: the call raises at the
    empty element. *)
Lemma NoOpTokenizer_empty_element_raises :
  NoOpTokenizer_call (mkNoOpTokenizer tt) ["a"; ""; "b"]
  = Raise (Exception "ValueError"
             "[E031] Invalid token: empty string ('') at position 1.").
Proof. vm_compute. reflexivity. Qed.

(** C5 (amended).  On a text none of whose space-delimited segments is empty
    (a non-empty text with no leading, trailing or doubled space) the
    whitespace tokenizer splits on the space character only: it makes
    [count(spaces) + 1] tokens; they are the space-delimited segments in
    order (no token contains a space, and joining the tokens with single
    spaces gives the input back); every token owns a trailing space.  On any
    other text the call raises the [ValueError] of spaCy's constructor and
    makes no document. *)
Theorem WhitespaceTokenizer_splits_on_spaces {Vocab}
    (self : WhitespaceTokenizer Vocab) (s : string) :
  ("" ∉ PyStr.split " " s →
   ∃ d, WhitespaceTokenizer_call self s = Return d
      ∧ doc_vocab d = ws_vocab self
      ∧ length (doc_tokens d) = PyStr.count " " s + 1
      ∧ (doc_tokens d).*1 = PyStr.split " " s
      ∧ PyStr.join " " (doc_tokens d).*1 = s
      ∧ Forall (λ t, PyStr.count " " t.1 = 0 ∧ t.2 = true) (doc_tokens d))
  ∧ ("" ∈ PyStr.split " " s →
     ∃ msg, WhitespaceTokenizer_call self s = Raise (Exception "ValueError" msg)).
Proof.
  split.
  - intros Hw. destruct (WhitespaceTokenizer_returns self s Hw) as (d & Hd & Hv & Ht).
    exists d. rewrite Ht, fst_pair_true. split_and!; [done..| | | |].
    + by rewrite length_fmap, PyStrFacts.split_length.
    + done.
    + apply PyStrFacts.join_split.
    + apply Forall_fmap. eapply Forall_impl; [apply (PyStrFacts.split_no_sep " " s)|].
      by intros w Hw'.
  - intros Hw. by apply Doc_init_empty_word.
Qed.

Lemma WhitespaceTokenizer_splits_on_spaces_witness :
  ∃ d, WhitespaceTokenizer_call (mkWhitespaceTokenizer tt) "the cat sat" = Return d
     ∧ doc_vocab d = tt
     ∧ length (doc_tokens d) = 3
     ∧ (doc_tokens d).*1 = ["the"; "cat"; "sat"]
     ∧ PyStr.join " " (doc_tokens d).*1 = "the cat sat"
     ∧ Forall (λ t, PyStr.count " " t.1 = 0 ∧ t.2 = true) (doc_tokens d).
Proof.
  apply (proj1 (WhitespaceTokenizer_splits_on_spaces (mkWhitespaceTokenizer tt) "the cat sat")).
  apply (bool_decide_eq_false_1 _). vm_compute. reflexivity.
Defined.

(** C5 (as stated, refuted).  The empty text, a text ending in a space and a
    text with a doubled space have an empty segment: the tokenizer makes no
    token, the call raises at that segment. *)
Lemma WhitespaceTokenizer_empty_segment_raises :
  WhitespaceTokenizer_call (mkWhitespaceTokenizer tt) ""
  = Raise (Exception "ValueError" "[E031] Invalid token: empty string ('') at position 0.")
  ∧ WhitespaceTokenizer_call (mkWhitespaceTokenizer tt) "a "
    = Raise (Exception "ValueError" "[E031] Invalid token: empty string ('') at position 1.")
  ∧ WhitespaceTokenizer_call (mkWhitespaceTokenizer tt) "a  b"
    = Raise (Exception "ValueError" "[E031] Invalid token: empty string ('') at position 1.").
Proof. split_and!; vm_compute; reflexivity. Qed.

Example WhitespaceTokenizer_call_ex :
  WhitespaceTokenizer_call (mkWhitespaceTokenizer tt) "the cat, sat."
  = Return (mkDoc tt ["the"; "cat,"; "sat."] [true; true; true]).
Proof. vm_compute. reflexivity. Qed.

(** ** The installation checks *)

(** With no distribution installed the loop body never runs and the
    function falls off its end: it returns [None]. *)
Lemma is_package_nil name : SpacyAnnotator.is_package [] name = None.
Proof. done. Qed.

(** With a distribution installed, the answer is the comparison with the
    first one, whatever the others are. *)
Lemma is_package_first package rest name :
  SpacyAnnotator.is_package (package :: rest) name
  = Some (String.eqb (normalized package) (PyStr.lower name)).
Proof. unfold SpacyAnnotator.is_package, normalized. by destruct (String.eqb _ _). Qed.

(** C1 (the code departs from it).  The loop of [is_package] returns at the
    first distribution it compares: with "pip" and "spacy-lookups-data"
    installed, in that order, the name "spacy_lookups_data" matches the second
    distribution, normalized, and [is_package] answers [False]. *)
Theorem is_package_stops_at_first_package :
  let packages := ["pip"; "spacy-lookups-data"] in
  PyStr.lower "spacy_lookups_data" ∈ normalized <$> packages
  ∧ SpacyAnnotator.is_package packages "spacy_lookups_data" = Some false.
Proof. split; [|reflexivity]. simpl. apply list_elem_of_further, list_elem_of_here. Qed.

(** C8 (amended).  [model_installed] raises [IOError] (an alias of [OSError])
    when spaCy reports no data directory or the path does not exist, and
    the [OSError] of [iterdir] when the path is not a directory.  Otherwise
    it returns a boolean: [True] when the name is the name of an entry of
    the data directory, whatever the entry's kind, or is, lower-cased, the
    first installed distribution, normalized, or is an existing path; and
    [False] when the name is neither the name of an entry, nor, lower-cased,
    an installed distribution, normalized, nor an existing path. *)
Theorem model_installed_spec (fs : SpacyAnnotator.FileSystem)
    (packages : list string) (name : string) :
  ((SpacyAnnotator.get_data_path fs = None
    ∨ ∃ d, SpacyAnnotator.get_data_path fs = Some d
         ∧ (SpacyAnnotator.exists_ fs d = false ∨ SpacyAnnotator.is_dir fs d = false))
   → ∃ msg, SpacyAnnotator.model_installed fs packages name = Raise (OSError msg))
  ∧ (∀ d, SpacyAnnotator.get_data_path fs = Some d
     → SpacyAnnotator.exists_ fs d = true
     → SpacyAnnotator.is_dir fs d = true
     → ∃ b, SpacyAnnotator.model_installed fs packages name = Return b
         ∧ (name ∈ SpacyAnnotator.Path_name <$> SpacyAnnotator.iterdir fs d
            ∨ (∃ package, head packages = Some package
                        ∧ normalized package = PyStr.lower name)
            ∨ SpacyAnnotator.exists_ fs name = true
            → b = true)
         ∧ (b = true
            → name ∈ SpacyAnnotator.Path_name <$> SpacyAnnotator.iterdir fs d
              ∨ PyStr.lower name ∈ normalized <$> packages
              ∨ SpacyAnnotator.exists_ fs name = true)).
Proof.
  unfold SpacyAnnotator.model_installed, SpacyAnnotator.Path_iterdir. split.
  - intros [->|(d & -> & [-> | Hdir])]; simpl; [eauto..|].
    rewrite Hdir. destruct (SpacyAnnotator.exists_ fs d); simpl; eauto.
  - intros d -> -> ->. simpl. case_bool_decide as Hin.
    { exists true. split; [done|]. apply elem_of_list_to_set in Hin. tauto. }
    rewrite elem_of_list_to_set in Hin.
    destruct packages as [|package rest].
    { simpl. destruct (SpacyAnnotator.exists_ fs name) eqn:Hex.
      - exists true. tauto.
      - exists false. split; [done|]. split; [|done].
        intros [?|[(? & [=] & _)|?]]; done. }
    rewrite is_package_first. simpl.
    destruct (String.eqb_spec (normalized package) (PyStr.lower name)) as [Heq|Hne]; simpl.
    { exists true. split; [done|]. split; [done|]. intros _. right. left.
      rewrite <- Heq. apply list_elem_of_here. }
    destruct (SpacyAnnotator.exists_ fs name) eqn:Hex.
    + exists true. tauto.
    + exists false. split; [done|]. split; [|done].
      intros [?|[(? & [= <-] & ?)|?]]; done.
Qed.

Lemma model_installed_spec_witness :
  ∃ b, SpacyAnnotator.model_installed Fixture.fs ["pip"] "en" = Return b
     ∧ ("en" ∈ SpacyAnnotator.Path_name <$> SpacyAnnotator.iterdir Fixture.fs "/usr/lib/spacy/data"
        ∨ (∃ package, head ["pip"] = Some package ∧ normalized package = PyStr.lower "en")
        ∨ SpacyAnnotator.exists_ Fixture.fs "en" = true
        → b = true)
     ∧ (b = true
        → "en" ∈ SpacyAnnotator.Path_name <$> SpacyAnnotator.iterdir Fixture.fs "/usr/lib/spacy/data"
          ∨ PyStr.lower "en" ∈ normalized <$> ["pip"]
          ∨ SpacyAnnotator.exists_ Fixture.fs "en" = true).
Proof.
  apply (proj2 (model_installed_spec Fixture.fs ["pip"] "en") "/usr/lib/spacy/data");
    reflexivity.
Defined.

(** C8 (as stated, refuted).  A regular file of the data directory is an
    entry like another: "README.md" is no subdirectory of the data
    directory, no installed distribution and no existing path, and
    [model_installed] answers [True]. *)
Lemma model_installed_regular_file_entry :
  let fs := Fixture.fs_with_file in
  SpacyAnnotator.get_data_path fs = Some "/usr/lib/spacy/data"
  ∧ "/usr/lib/spacy/data/README.md" ∈ SpacyAnnotator.iterdir fs "/usr/lib/spacy/data"
  ∧ SpacyAnnotator.is_dir fs "/usr/lib/spacy/data/README.md" = false
  ∧ (∀ entry, entry ∈ SpacyAnnotator.iterdir fs "/usr/lib/spacy/data" →
              SpacyAnnotator.is_dir fs entry = true →
              SpacyAnnotator.Path_name entry ≠ "README.md")
  ∧ (PyStr.lower "README.md" ∉ normalized <$> ["pip"])
  ∧ SpacyAnnotator.exists_ fs "README.md" = false
  ∧ SpacyAnnotator.model_installed fs ["pip"] "README.md" = Return true.
Proof.
  split_and!; try (vm_compute; reflexivity).
  - apply (bool_decide_unpack _). vm_compute. reflexivity.
  - intros entry Hin Hdir. simpl in Hin.
    apply elem_of_cons in Hin as [->|Hin]; [vm_compute; discriminate|].
    apply elem_of_cons in Hin as [->|Hin]; [vm_compute in Hdir; discriminate|].
    by apply not_elem_of_nil in Hin.
  - apply (bool_decide_eq_false_1 _). vm_compute. reflexivity.
Qed.

Example model_installed_linked :
  SpacyAnnotator.model_installed Fixture.fs ["pip"] "en" = Return true.
Proof. vm_compute. reflexivity. Qed.

Example model_installed_path :
  SpacyAnnotator.model_installed Fixture.fs ["pip"] "/models/de" = Return true.
Proof. vm_compute. reflexivity. Qed.

Example model_installed_unknown :
  SpacyAnnotator.model_installed Fixture.fs ["pip"] "fr" = Return false.
Proof. vm_compute. reflexivity. Qed.

Example model_installed_no_data_path :
  SpacyAnnotator.model_installed (SpacyAnnotator.mkFS None (λ _, true) (λ _, true) (λ _, [])) [] "en"
  = Raise (OSError "Can't find spaCy data path: None").
Proof. reflexivity. Qed.

Example model_installed_data_path_is_file :
  SpacyAnnotator.model_installed Fixture.fs_data_file ["pip"] "en"
  = Raise (OSError "[Errno 20] Not a directory: '/usr/lib/spacy/data'").
Proof. vm_compute. reflexivity. Qed.

(** ** remove_stopwords *)

Section Stopwords.

Context {Vocab W : Type}.
Variable E : Spacy Vocab W.
Variable STOP_WORDS : gset string.


Lemma kept_not_removed token : SpacyAnnotator.kept STOP_WORDS token = true ↔ ¬ removed STOP_WORDS token.
Proof.
  unfold SpacyAnnotator.kept, removed.
  rewrite !andb_true_iff, negb_true_iff, !bool_decide_eq_true.
  destruct (is_punct token); intuition congruence.
Qed.

Lemma comprehension_filter attr toks acc :
  SpacyAnnotator.comprehension STOP_WORDS attr toks acc
  = (acc ++ ((λ t, SpacyAnnotator.getattr t attr) <$> filter (λ t, ¬ removed STOP_WORDS t) toks))%list.
Proof.
  revert acc. induction toks as [|t toks IH]; intros acc; simpl.
  - by rewrite app_nil_r.
  - rewrite filter_cons. destruct (SpacyAnnotator.kept STOP_WORDS t) eqn:Hk.
    + apply kept_not_removed in Hk. rewrite decide_True by done.
      rewrite IH, fmap_cons, <- app_assoc. done.
    + rewrite decide_False; [apply IH|].
      intros Hn. apply kept_not_removed in Hn. congruence.
Qed.

Lemma getattr_chosen (use_lemma : bool) t :
  SpacyAnnotator.getattr t (if use_lemma then "lemma_" else "text") = chosen use_lemma t.
Proof. by destruct use_lemma. Qed.

Lemma joined_comprehension (use_lemma : bool) toks :
  PyStr.join " " (SpacyAnnotator.comprehension STOP_WORDS (if use_lemma then "lemma_" else "text") toks [])
  = stopwords_removed STOP_WORDS use_lemma toks.
Proof.
  rewrite comprehension_filter. simpl. unfold stopwords_removed, PyStr.join. f_equal.
  apply list_fmap_ext. intros ? t ?. apply getattr_chosen.
Qed.

(** Unfolding one call of the method down to the state it runs on. *)
Ltac run_remove_stopwords :=
  unfold SpacyAnnotator.remove_stopwords, SpacyAnnotator.tokens_truthy,
    bind, ret, raise, deref, alloc, ext; simpl.

(** A caller's non-empty token list is filtered as it is; nothing outside is
    called and the state is left as it was. *)
Lemma remove_stopwords_given self sentence_str l toks use_lemma (s : State W) :
  heap s !! l = Some toks → toks ≠ [] →
  SpacyAnnotator.remove_stopwords E STOP_WORDS self sentence_str (Some l) use_lemma s
  = (Return (stopwords_removed STOP_WORDS use_lemma toks), s).
Proof.
  intros Hl Hne. run_remove_stopwords. rewrite Hl.
  destruct toks as [|t toks]; [done|]. simpl. rewrite Hl.
  by rewrite joined_comprehension.
Qed.

(** Without tokens, a non-empty sentence goes through the pipeline once and
    the document it returns is filtered. *)
Lemma remove_stopwords_sentence self str tokens use_lemma (s : State W) doc w' :
  absent_or_empty (heap s) tokens → str ≠ "" →
  nlp_call E (SpacyAnnotator.model self) str (world s) = (Return doc, w') →
  SpacyAnnotator.remove_stopwords E STOP_WORDS self (Some str) tokens use_lemma s
  = (Return (stopwords_removed STOP_WORDS use_lemma doc),
     mkState w' (trace s ++ [EvCall str]) (<[fresh (dom (heap s)) := doc]> (heap s))).
Proof.
  intros Habs Hstr Hcall. run_remove_stopwords.
  assert (PyStr.str_truthy str = true) as ->.
  { unfold PyStr.str_truthy. apply negb_true_iff, String.eqb_neq, Hstr. }
  destruct tokens as [l|]; simpl in Habs; [rewrite Habs|]; simpl;
    rewrite Hcall; simpl; rewrite lookup_insert_eq; by rewrite joined_comprehension.
Qed.

(** Without tokens and without a sentence the method filters a new empty
    list: it calls nothing and returns the empty string. *)
Lemma remove_stopwords_nothing self sentence_str tokens use_lemma (s : State W) :
  absent_or_empty (heap s) tokens →
  sentence_str = None ∨ sentence_str = Some "" →
  SpacyAnnotator.remove_stopwords E STOP_WORDS self sentence_str tokens use_lemma s
  = (Return "",
     mkState (world s) (trace s) (<[fresh (dom (heap s)) := []]> (heap s))).
Proof.
  intros Habs Hs. run_remove_stopwords.
  destruct tokens as [l|]; simpl in Habs; [rewrite Habs|]; simpl;
    destruct Hs as [-> | ->]; simpl; by rewrite lookup_insert_eq.
Qed.

Lemma heap_insert_fresh (h : gmap loc (list Token)) toks :
  h ⊆ <[fresh (dom h) := toks]> h.
Proof. apply insert_subseteq, not_elem_of_dom, is_fresh. Qed.

(** Whatever the arguments, the method only adds objects to the heap. *)
Lemma remove_stopwords_heap self sentence_str tokens use_lemma (s : State W) :
  heap s ⊆ heap (SpacyAnnotator.remove_stopwords E STOP_WORDS self sentence_str tokens use_lemma s).2.
Proof.
  run_remove_stopwords.
  destruct tokens as [l|]; simpl.
  - destruct (heap s !! l) as [[|t toks]|] eqn:Hl; simpl; [| by rewrite Hl | done].
    destruct sentence_str as [str|]; simpl.
    + destruct (PyStr.str_truthy str); simpl.
      * destruct (nlp_call E _ str (world s)) as [[doc|e|] w']; simpl; [|done..].
        rewrite lookup_insert_eq. apply heap_insert_fresh.
      * rewrite lookup_insert_eq. apply heap_insert_fresh.
    + rewrite lookup_insert_eq. apply heap_insert_fresh.
  - destruct sentence_str as [str|]; simpl.
    + destruct (PyStr.str_truthy str); simpl.
      * destruct (nlp_call E _ str (world s)) as [[doc|e|] w']; simpl; [|done..].
        rewrite lookup_insert_eq. apply heap_insert_fresh.
      * rewrite lookup_insert_eq. apply heap_insert_fresh.
    + rewrite lookup_insert_eq. apply heap_insert_fresh.
Qed.

(** C2.  [remove_stopwords] removes exactly the tokens whose text is
    punctuation or whose text or lemma is a stop word, and joins the chosen
    attribute of the others with single spaces: so for the token list
    passed by the caller (an empty list counts as no list when a sentence
    comes with it), and so for the document of the pipeline when only a
    sentence is passed.  In particular, when the pipeline reads "the
    cat sat" as the three words, "the" is a stop word and the other two
    tokens are not removed, the call with [use_lemma=False] returns
    "cat sat". *)
Theorem remove_stopwords_filters_and_joins self (use_lemma : bool) (s : State W) :
  (∀ sentence_str l toks,
     heap s !! l = Some toks →
     toks ≠ [] ∨ sentence_str = None ∨ sentence_str = Some "" →
     (SpacyAnnotator.remove_stopwords E STOP_WORDS self sentence_str (Some l) use_lemma s).1
     = Return (stopwords_removed STOP_WORDS use_lemma toks))
  ∧ (∀ str tokens doc w',
       absent_or_empty (heap s) tokens → str ≠ "" →
       nlp_call E (SpacyAnnotator.model self) str (world s) = (Return doc, w') →
       (SpacyAnnotator.remove_stopwords E STOP_WORDS self (Some str) tokens use_lemma s).1
       = Return (stopwords_removed STOP_WORDS use_lemma doc))
  ∧ (∀ t1 t2 t3 w',
       nlp_call E (SpacyAnnotator.model self) "the cat sat" (world s)
       = (Return [t1; t2; t3], w') →
       text t1 = "the" → text t2 = "cat" → text t3 = "sat" →
       "the" ∈ STOP_WORDS →
       ¬ removed STOP_WORDS t2 → ¬ removed STOP_WORDS t3 →
       (SpacyAnnotator.remove_stopwords E STOP_WORDS self (Some "the cat sat") None false s).1
       = Return "cat sat").
Proof.
  split_and!.
  - intros sentence_str l toks Hl Hcase.
    destruct toks as [|t toks]; [|by rewrite (remove_stopwords_given _ _ _ (t :: toks))].
    rewrite remove_stopwords_nothing; [done|done|]. by destruct Hcase as [?|?].
  - intros str tokens doc w' Habs Hstr Hcall.
    by rewrite (remove_stopwords_sentence _ _ _ _ _ doc w').
  - intros t1 t2 t3 w' Hcall H1 H2 H3 Hthe Hk2 Hk3.
    rewrite (remove_stopwords_sentence _ _ _ _ _ [t1; t2; t3] w'); [|done..].
    simpl. unfold stopwords_removed. rewrite !filter_cons, filter_nil.
    rewrite decide_False by (intros Hn; apply Hn; right; left; by rewrite H1).
    rewrite !decide_True by done.
    simpl. by rewrite H2, H3.
Qed.

(** C7.  [remove_stopwords(None, tokens=None)] returns the empty string;
    more generally, with no sentence (or an empty one) and no tokens (or an
    empty sequence) the method returns the empty string, raising nothing and
    calling nothing outside. *)
Theorem remove_stopwords_absent_input self (use_lemma : bool) (s : State W) :
  (SpacyAnnotator.remove_stopwords E STOP_WORDS self None None use_lemma s).1 = Return ""
  ∧ (∀ sentence_str tokens,
       sentence_str = None ∨ sentence_str = Some "" →
       absent_or_empty (heap s) tokens →
       let r := SpacyAnnotator.remove_stopwords E STOP_WORDS self sentence_str tokens use_lemma s in
       r.1 = Return "" ∧ trace r.2 = trace s ∧ world r.2 = world s).
Proof.
  split.
  - by rewrite remove_stopwords_nothing; [| |left].
  - intros sentence_str tokens Hs Habs r. subst r.
    by rewrite remove_stopwords_nothing.
Qed.

(** C10.  [remove_stopwords] does not mutate the token sequence it is given:
    after the call the caller's reference holds the same tokens, element for
    element, and so does every other object that was on the heap; the joined
    string is a new value. *)
Theorem remove_stopwords_leaves_tokens self sentence_str l toks (use_lemma : bool)
    (s : State W) :
  heap s !! l = Some toks →
  let r := SpacyAnnotator.remove_stopwords E STOP_WORDS self sentence_str (Some l) use_lemma s in
  heap r.2 !! l = Some toks
  ∧ ∀ l' toks', heap s !! l' = Some toks' → heap r.2 !! l' = Some toks'.
Proof.
  intros Hl r. subst r.
  pose proof (remove_stopwords_heap self sentence_str (Some l) use_lemma s) as Hsub.
  split; [|intros l' toks' Hl']; by eapply lookup_weaken.
Qed.

End Stopwords.

Lemma remove_stopwords_filters_and_joins_witness :
  (SpacyAnnotator.remove_stopwords Fixture.spacy Fixture.STOP_WORDS
     (SpacyAnnotator.mkSelf (mkLanguage "en_core_web_sm" tt SpacyTokenizer))
     (Some "the cat sat") None false (Fixture.start true)).1
  = Return "cat sat".
Proof.
  apply (proj2 (proj2 (remove_stopwords_filters_and_joins Fixture.spacy Fixture.STOP_WORDS
                         (SpacyAnnotator.mkSelf (mkLanguage "en_core_web_sm" tt SpacyTokenizer))
                         false (Fixture.start true)))
           (Fixture.annotate "the") (Fixture.annotate "cat") (Fixture.annotate "sat")
           (Fixture.mkWorld [] [] true));
    try reflexivity.
  - apply (bool_decide_eq_false_1 _). vm_compute. reflexivity.
  - apply (bool_decide_eq_false_1 _). vm_compute. reflexivity.
Defined.

Lemma remove_stopwords_absent_input_witness :
  let s := mkState (Fixture.mkWorld [] [] false) [] {[ 1%positive := [] ]} in
  let r := SpacyAnnotator.remove_stopwords Fixture.spacy Fixture.STOP_WORDS
             (SpacyAnnotator.mkSelf (mkLanguage "en_core_web_sm" tt SpacyTokenizer))
             (Some "") (Some 1%positive) true s in
  r.1 = Return "" ∧ trace r.2 = trace s ∧ world r.2 = world s.
Proof.
  intros s.
  apply (proj2 (remove_stopwords_absent_input Fixture.spacy Fixture.STOP_WORDS
                  (SpacyAnnotator.mkSelf (mkLanguage "en_core_web_sm" tt SpacyTokenizer))
                  true s) (Some "") (Some 1%positive)).
  - right. reflexivity.
  - vm_compute. reflexivity.
Defined.

Lemma remove_stopwords_leaves_tokens_witness :
  let toks := [Fixture.annotate "the"; Fixture.annotate "cat"; Fixture.annotate "."] in
  let s := mkState (Fixture.mkWorld [] [] false) [] {[ 1%positive := toks ]} in
  let r := SpacyAnnotator.remove_stopwords Fixture.spacy Fixture.STOP_WORDS
             (SpacyAnnotator.mkSelf (mkLanguage "en_core_web_sm" tt SpacyTokenizer))
             None (Some 1%positive) true s in
  heap r.2 !! 1%positive = Some toks
  ∧ ∀ l' toks', heap s !! l' = Some toks' → heap r.2 !! l' = Some toks'.
Proof.
  intros toks s.
  apply (remove_stopwords_leaves_tokens Fixture.spacy Fixture.STOP_WORDS
           (SpacyAnnotator.mkSelf (mkLanguage "en_core_web_sm" tt SpacyTokenizer))
           None 1%positive toks true s).
  vm_compute. reflexivity.
Defined.

Example remove_stopwords_tokens_ex :
  (SpacyAnnotator.remove_stopwords Fixture.spacy Fixture.STOP_WORDS
     (SpacyAnnotator.mkSelf (mkLanguage "en_core_web_sm" tt SpacyTokenizer))
     None (Some 1%positive) true
     (mkState (Fixture.mkWorld [] [] false) []
        {[ 1%positive := Fixture.annotate <$> ["The"; "Cat"; "sat"; "."] ]})).1
  = Return "cat sat".
Proof. vm_compute. reflexivity. Qed.

(** ** load_lang_model *)

Section Loader.

Context {Vocab W : Type}.
Variable E : Spacy Vocab W.

Ltac run_loader :=
  unfold SpacyAnnotator.load_or_download, SpacyAnnotator.download_and_link,
    try_except, bind, ret, raise, warning, ext; simpl.

(** The handler's first part calls the download exactly once and never loads;
    when it returns, it has made the download, the path lookup and the link,
    in this order. *)
Lemma download_and_link_trace lang (s : State W) :
  let r := SpacyAnnotator.download_and_link E lang s in
  ∃ evs, trace r.2 = trace s ++ evs ∧ downloads evs = 1 ∧ loads evs = 0
       ∧ heap r.2 = heap s
       ∧ (r.1 = Return tt →
            ∃ msg p, evs = [EvWarning msg; EvDownload lang; EvGetPackagePath lang;
                            EvLink lang lang p]).
Proof.
  run_loader.
  destruct (spacy_download E lang (world s)) as [[[]|e|] w2]; simpl;
    [|by eexists [_; _]; rewrite <- app_assoc..].
  destruct (get_package_path E lang w2) as [[p|e|] w3]; simpl;
    [|by eexists [_; _; _]; rewrite <- !app_assoc..].
  destruct (link E lang lang p w3) as [[[]|e|] w4]; simpl;
    eexists [_; _; _; _]; rewrite <- !app_assoc; split_and!; try done.
  intros _. by do 2 eexists.
Qed.

Lemma load_or_download_loaded lang disable (s : State W) nlp w1 :
  spacy_load E lang disable (world s) = (Return nlp, w1) →
  SpacyAnnotator.load_or_download E lang disable s
  = (Return nlp, after s w1 [EvLoad lang disable]).
Proof. intros H. run_loader. by rewrite H. Qed.

Lemma load_or_download_propagates lang disable (s : State W) e w1 :
  spacy_load E lang disable (world s) = (Raise e, w1) →
  isinstance_OSError e = false →
  SpacyAnnotator.load_or_download E lang disable s
  = (Raise e, after s w1 [EvLoad lang disable]).
Proof. intros H He. run_loader. rewrite H. simpl. by rewrite He. Qed.

Lemma load_or_download_not_found lang disable (s : State W) e w1 :
  spacy_load E lang disable (world s) = (Raise e, w1) →
  isinstance_OSError e = true →
  SpacyAnnotator.load_or_download E lang disable s
  = bind (SpacyAnnotator.download_and_link E lang)
      (λ _, ext (EvLoad lang disable) (spacy_load E lang disable))
      (after s w1 [EvLoad lang disable]).
Proof.
  intros H He. unfold SpacyAnnotator.load_or_download, try_except.
  unfold ext at 1. rewrite H. simpl. by rewrite He.
Qed.

Lemma load_lang_model_standard fuel lang disable :
  PyStr.contains "coref" lang = false →
  SpacyAnnotator.load_lang_model E (S fuel) lang disable
  = SpacyAnnotator.load_or_download E lang disable.
Proof. intros H. simpl. by rewrite H. Qed.

(** C3 (amended).  For an identifier without the marker whose first load
    raises: an exception that is not an [OSError] propagates and nothing
    else is called; on an [OSError] the loader warns and attempts the
    download exactly once, and
    - when the download, the path lookup and the link return, it retries
      the load exactly once and the outcome of the retry is its outcome;
    - when the download, the path lookup or the link raises, that exception
      propagates and no later step, in particular no retry, is made. *)
Theorem load_lang_model_not_found fuel lang disable (s : State W) e w1 :
  PyStr.contains "coref" lang = false →
  spacy_load E lang disable (world s) = (Raise e, w1) →
  let r := SpacyAnnotator.load_lang_model E (S fuel) lang disable s in
  let msg := ("Spacy models '" ++ lang ++ "' not found.  Downloading and installing.")%string in
  (isinstance_OSError e = false → r = (Raise e, after s w1 [EvLoad lang disable]))
  ∧ (isinstance_OSError e = true →
     (∀ w2 p w3 w4,
        spacy_download E lang w1 = (Return tt, w2) →
        get_package_path E lang w2 = (Return p, w3) →
        link E lang lang p w3 = (Return tt, w4) →
        r = ((spacy_load E lang disable w4).1,
             after s (spacy_load E lang disable w4).2
               [EvLoad lang disable; EvWarning msg; EvDownload lang;
                EvGetPackagePath lang; EvLink lang lang p; EvLoad lang disable]))
     ∧ (∀ e' w2,
          spacy_download E lang w1 = (Raise e', w2) →
          r = (Raise e', after s w2 [EvLoad lang disable; EvWarning msg; EvDownload lang]))
     ∧ (∀ w2 e' w3,
          spacy_download E lang w1 = (Return tt, w2) →
          get_package_path E lang w2 = (Raise e', w3) →
          r = (Raise e', after s w3 [EvLoad lang disable; EvWarning msg; EvDownload lang;
                                     EvGetPackagePath lang]))
     ∧ (∀ w2 p w3 e' w4,
          spacy_download E lang w1 = (Return tt, w2) →
          get_package_path E lang w2 = (Return p, w3) →
          link E lang lang p w3 = (Raise e', w4) →
          r = (Raise e', after s w4 [EvLoad lang disable; EvWarning msg; EvDownload lang;
                                     EvGetPackagePath lang; EvLink lang lang p]))).
Proof.
  intros Hstd Hload r msg. subst r msg. rewrite load_lang_model_standard by done. split.
  - intros He. by apply load_or_download_propagates.
  - intros He. rewrite (load_or_download_not_found _ _ _ e w1) by done.
    unfold after. split_and!.
    + intros w2 p w3 w4 Hd Hp Hl. run_loader. rewrite Hd. simpl. rewrite Hp. simpl.
      rewrite Hl. simpl. destruct (spacy_load E lang disable w4) as [o w5]. simpl.
      by rewrite <- !app_assoc.
    + intros e' w2 Hd. run_loader. rewrite Hd. simpl. by rewrite <- !app_assoc.
    + intros w2 e' w3 Hd Hp. run_loader. rewrite Hd. simpl. rewrite Hp. simpl.
      by rewrite <- !app_assoc.
    + intros w2 p w3 e' w4 Hd Hp Hl. run_loader. rewrite Hd. simpl. rewrite Hp. simpl.
      rewrite Hl. simpl. by rewrite <- !app_assoc.
Qed.

(** One step of the fallback: the failed load of an identifier with the
    marker is followed by one call on the identifier's first segment. *)
Lemma load_lang_model_recurses fuel lang disable (s : State W) e w1 base :
  PyStr.contains "coref" lang = true →
  spacy_load E lang disable (world s) = (Raise e, w1) →
  PyStr.split "_" lang !! 0 = Some base →
  SpacyAnnotator.load_lang_model E (S fuel) lang disable s
  = SpacyAnnotator.load_lang_model E fuel base disable (after s w1 [EvLoad lang disable]).
Proof.
  intros Hco Hload Hbase. simpl. rewrite Hco. unfold try_except, ext at 1.
  rewrite Hload. simpl. unfold PyStr.item0. rewrite head_lookup, Hbase. done.
Qed.

(** C4 (amended).  For an identifier containing the marker whose direct load
    raises, the loader calls itself once, with the first underscore-separated
    segment of the identifier, in the state the failed load left; when that
    segment does not contain the marker, the call is the standard path on the
    segment (load, and on [OSError] download, link and retry), whose outcome,
    a pipeline or an exception, is the loader's outcome. *)
Theorem load_lang_model_coref_fallback lang disable (s : State W) e w1 :
  PyStr.contains "coref" lang = true →
  spacy_load E lang disable (world s) = (Raise e, w1) →
  ∃ base, PyStr.split "_" lang !! 0 = Some base
    ∧ (∀ fuel,
         SpacyAnnotator.load_lang_model E (S fuel) lang disable s
         = SpacyAnnotator.load_lang_model E fuel base disable (after s w1 [EvLoad lang disable]))
    ∧ (PyStr.contains "coref" base = false →
       ∀ fuel,
         SpacyAnnotator.load_lang_model E (S (S fuel)) lang disable s
         = SpacyAnnotator.load_or_download E base disable (after s w1 [EvLoad lang disable])).
Proof.
  intros Hco Hload.
  pose proof (PyStrFacts.split_nonempty "_" lang) as Hne.
  destruct (PyStr.split "_" lang) as [|base segs] eqn:Hsplit; [done|].
  exists base. split; [done|].
  assert (∀ fuel,
    SpacyAnnotator.load_lang_model E (S fuel) lang disable s
    = SpacyAnnotator.load_lang_model E fuel base disable (after s w1 [EvLoad lang disable]))
    as Hrec.
  { intros fuel. apply (load_lang_model_recurses _ _ _ _ e); [done..|]. by rewrite Hsplit. }
  split; [done|]. intros Hbase fuel. by rewrite Hrec, load_lang_model_standard.
Qed.

(** When the direct load of an identifier with the marker returns, there is
    no fallback. *)
Lemma load_lang_model_coref_loaded fuel lang disable (s : State W) nlp w1 :
  PyStr.contains "coref" lang = true →
  spacy_load E lang disable (world s) = (Return nlp, w1) →
  SpacyAnnotator.load_lang_model E (S fuel) lang disable s
  = (Return nlp, after s w1 [EvLoad lang disable]).
Proof. intros Hco Hload. simpl. rewrite Hco. unfold try_except, ext. by rewrite Hload. Qed.

(** C9.  Constructed with both flags set, the annotator carries the
    pass-through tokenizer: once the pipeline is loaded and the cached
    vocabulary read, the constructor returns an annotator whose tokenizer is
    the pass-through one, over the vocabulary of its pipeline; the
    assignment of line 77 comes after the one of line 75. *)
Theorem init_both_flags_pass_through fuel disable lang (s : State W) nlp s1 self0 s2 :
  SpacyAnnotator.load_lang_model E fuel lang (PyStr.or_empty disable) s = (Return nlp, s1) →
  SpacyAnnotator.load E (SpacyAnnotator.mkSelf nlp) s1 = (Return self0, s2) →
  ∃ self,
    SpacyAnnotator.__init__ E fuel disable true true lang s = (Return self, s2)
    ∧ tokenizer (SpacyAnnotator.model self)
      = UseNoOp (mkNoOpTokenizer (vocab (SpacyAnnotator.model self)))
    ∧ vocab (SpacyAnnotator.model self) = vocab (SpacyAnnotator.model self0)
    ∧ meta_name (SpacyAnnotator.model self) = meta_name (SpacyAnnotator.model self0).
Proof.
  intros Hload Hvocab. unfold SpacyAnnotator.__init__, bind, ret.
  rewrite Hload, Hvocab. eexists. split; [reflexivity|]. done.
Qed.

(** The pre-tokenized flag alone decides: whatever the whitespace flag. *)
Lemma init_pre_tokenized fuel disable use_whitespace lang (s : State W) self s' :
  SpacyAnnotator.__init__ E fuel disable true use_whitespace lang s = (Return self, s') →
  tokenizer (SpacyAnnotator.model self)
  = UseNoOp (mkNoOpTokenizer (vocab (SpacyAnnotator.model self))).
Proof.
  unfold SpacyAnnotator.__init__, bind, ret.
  destruct (SpacyAnnotator.load_lang_model E fuel lang _ s) as [[nlp|?|] s1]; [|done..].
  destruct (SpacyAnnotator.load E (SpacyAnnotator.mkSelf nlp) s1) as [[self0|?|] s2]; [|done..].
  intros [= <- <-]. by destruct use_whitespace.
Qed.

Lemma init_whitespace_only fuel disable lang (s : State W) self s' :
  SpacyAnnotator.__init__ E fuel disable false true lang s = (Return self, s') →
  tokenizer (SpacyAnnotator.model self)
  = UseWhitespace (mkWhitespaceTokenizer (vocab (SpacyAnnotator.model self))).
Proof.
  unfold SpacyAnnotator.__init__, bind, ret.
  destruct (SpacyAnnotator.load_lang_model E fuel lang _ s) as [[nlp|?|] s1]; [|done..].
  destruct (SpacyAnnotator.load E (SpacyAnnotator.mkSelf nlp) s1) as [[self0|?|] s2]; [|done..].
  intros [= <- <-]. done.
Qed.

End Loader.

(** *** The loader in the small world *)

Lemma loads_snoc evs ev : loads (evs ++ [ev]) = loads evs + (if is_load ev then 1 else 0).
Proof.
  unfold loads. rewrite filter_app, length_app. f_equal.
  rewrite filter_cons, filter_nil. destruct (is_load ev); by simpl.
Qed.

(** With nothing linked, an identifier that is its own first segment and
    contains the marker is loaded again and again: one load per level of
    calls, and no level returns. *)
Lemma load_lang_model_coref_loops fuel (s : State Fixture.world) :
  Fixture.installed (world s) = [] →
  let r := SpacyAnnotator.load_lang_model Fixture.spacy fuel "coref" [] s in
  r.1 = Diverge ∧ loads (trace r.2) = loads (trace s) + fuel.
Proof.
  revert s. induction fuel as [|fuel IH]; intros s Hs r; subst r.
  - simpl. split; [done|lia].
  - rewrite (load_lang_model_recurses Fixture.spacy fuel "coref" [] s
               (OSError "[E050] Can't find model 'coref'.") (world s) "coref");
      [|done| |done].
    + destruct (IH (after s (world s) [EvLoad "coref" []]) Hs) as [Hd Hl].
      split; [done|]. rewrite Hl. simpl. rewrite loads_snoc. simpl. lia.
    + simpl. unfold Fixture.spacy_load. rewrite Hs. done.
Qed.

(** C3 (as stated, refuted).  Offline and with nothing linked, the first
    load of "en_core_web_sm" raises [OSError] and the download raises: the
    loader has loaded once, warned and attempted the download once; it makes
    no link and no retry, and the exception of the download is what the
    caller gets. *)
Lemma load_lang_model_download_raises :
  PyStr.contains "coref" "en_core_web_sm" = false
  ∧ (Fixture.spacy_load "en_core_web_sm" [] (world (Fixture.start false))).1
    = Raise (OSError "[E050] Can't find model 'en_core_web_sm'.")
  ∧ ∀ fuel,
      SpacyAnnotator.load_lang_model Fixture.spacy (S fuel) "en_core_web_sm" []
        (Fixture.start false)
      = (Raise (Exception "RuntimeError" "download failed"),
         mkState (Fixture.mkWorld [] [] false)
           [EvLoad "en_core_web_sm" [];
            EvWarning "Spacy models 'en_core_web_sm' not found.  Downloading and installing.";
            EvDownload "en_core_web_sm"]
           ∅).
Proof. split_and!; [reflexivity..|]. intros fuel. reflexivity. Qed.

Lemma load_lang_model_not_found_witness :
  SpacyAnnotator.load_lang_model Fixture.spacy 1 "en_core_web_sm" [] (Fixture.start true)
  = (Return (mkLanguage "en_core_web_sm" tt SpacyTokenizer),
     mkState (Fixture.mkWorld ["en_core_web_sm"] ["en_core_web_sm"] true)
       [EvLoad "en_core_web_sm" [];
        EvWarning "Spacy models 'en_core_web_sm' not found.  Downloading and installing.";
        EvDownload "en_core_web_sm";
        EvGetPackagePath "en_core_web_sm";
        EvLink "en_core_web_sm" "en_core_web_sm" "site-packages/en_core_web_sm";
        EvLoad "en_core_web_sm" []]
       ∅).
Proof.
  apply (proj1 (proj2 (load_lang_model_not_found Fixture.spacy 0 "en_core_web_sm" []
                         (Fixture.start true)
                         (OSError "[E050] Can't find model 'en_core_web_sm'.")
                         (Fixture.mkWorld [] [] true) eq_refl eq_refl) eq_refl)
           (Fixture.mkWorld [] ["en_core_web_sm"] true)
           "site-packages/en_core_web_sm"
           (Fixture.mkWorld [] ["en_core_web_sm"] true)
           (Fixture.mkWorld ["en_core_web_sm"] ["en_core_web_sm"] true));
    reflexivity.
Defined.

(** C4 (as stated, refuted).  Offline and with nothing linked:
    "en_coref_sm" contains the marker and its load raises; the fallback on
    "en" raises too (its load fails, then its download), so the loader raises;
    and for "coref_sm", whose first segment contains the marker, the loader
    does not recurse once: every level of calls loads "coref" and calls
    again. *)
Lemma load_lang_model_coref_fallback_raises :
  (PyStr.contains "coref" "en_coref_sm" = true
   ∧ raises (Fixture.spacy_load "en_coref_sm" [] (world (Fixture.start false))).1
   ∧ PyStr.split "_" "en_coref_sm" !! 0 = Some "en"
   ∧ ∀ fuel,
       SpacyAnnotator.load_lang_model Fixture.spacy (S (S fuel)) "en_coref_sm" []
         (Fixture.start false)
       = (Raise (Exception "RuntimeError" "download failed"),
          mkState (Fixture.mkWorld [] [] false)
            [EvLoad "en_coref_sm" []; EvLoad "en" [];
             EvWarning "Spacy models 'en' not found.  Downloading and installing.";
             EvDownload "en"]
            ∅))
  ∧ (PyStr.contains "coref" "coref_sm" = true
     ∧ raises (Fixture.spacy_load "coref_sm" [] (world (Fixture.start false))).1
     ∧ PyStr.split "_" "coref_sm" !! 0 = Some "coref"
     ∧ ∀ fuel,
         let r := SpacyAnnotator.load_lang_model Fixture.spacy (S fuel) "coref_sm" []
                    (Fixture.start false) in
         r.1 = Diverge ∧ loads (trace r.2) = S fuel).
Proof.
  split; split_and!; try reflexivity; try exact I.
  intros fuel r. subst r.
  rewrite (load_lang_model_recurses Fixture.spacy fuel "coref_sm" [] (Fixture.start false)
             (OSError "[E050] Can't find model 'coref_sm'.")
             (Fixture.mkWorld [] [] false) "coref") by reflexivity.
  destruct (load_lang_model_coref_loops fuel
              (after (Fixture.start false) (Fixture.mkWorld [] [] false) [EvLoad "coref_sm" []])
              eq_refl) as [Hd Hl].
  split; [done|]. rewrite Hl. simpl. unfold loads. simpl. lia.
Qed.

Lemma load_lang_model_coref_fallback_witness :
  ∃ base, PyStr.split "_" "en_coref_sm" !! 0 = Some base
    ∧ (∀ fuel,
         SpacyAnnotator.load_lang_model Fixture.spacy (S fuel) "en_coref_sm" []
           (Fixture.start true)
         = SpacyAnnotator.load_lang_model Fixture.spacy fuel base []
             (after (Fixture.start true) (Fixture.mkWorld [] [] true) [EvLoad "en_coref_sm" []]))
    ∧ (PyStr.contains "coref" base = false →
       ∀ fuel,
         SpacyAnnotator.load_lang_model Fixture.spacy (S (S fuel)) "en_coref_sm" []
           (Fixture.start true)
         = SpacyAnnotator.load_or_download Fixture.spacy base []
             (after (Fixture.start true) (Fixture.mkWorld [] [] true) [EvLoad "en_coref_sm" []])).
Proof.
  apply (load_lang_model_coref_fallback Fixture.spacy "en_coref_sm" [] (Fixture.start true)
           (OSError "[E050] Can't find model 'en_coref_sm'.") (Fixture.mkWorld [] [] true));
    reflexivity.
Defined.

(** Online, the fallback of "en_coref_sm" downloads and links "en" and
    returns its pipeline. *)
Example load_lang_model_coref_online :
  (SpacyAnnotator.load_lang_model Fixture.spacy 2 "en_coref_sm" [] (Fixture.start true)).1
  = Return (mkLanguage "en" tt SpacyTokenizer).
Proof. reflexivity. Qed.

Lemma init_both_flags_pass_through_witness :
  ∃ self,
    SpacyAnnotator.__init__ Fixture.spacy 1 None true true "en_core_web_sm" (Fixture.start true)
    = (Return self,
       mkState (Fixture.mkWorld ["en_core_web_sm"] ["en_core_web_sm"] true)
         [EvLoad "en_core_web_sm" [];
          EvWarning "Spacy models 'en_core_web_sm' not found.  Downloading and installing.";
          EvDownload "en_core_web_sm";
          EvGetPackagePath "en_core_web_sm";
          EvLink "en_core_web_sm" "en_core_web_sm" "site-packages/en_core_web_sm";
          EvLoad "en_core_web_sm" [];
          EvLoadCaches "caches/vocab.pkl";
          EvWarning "No such file or directory: 'caches/vocab.pkl'"]
         ∅)
    ∧ tokenizer (SpacyAnnotator.model self)
      = UseNoOp (mkNoOpTokenizer (vocab (SpacyAnnotator.model self)))
    ∧ vocab (SpacyAnnotator.model self) = tt
    ∧ meta_name (SpacyAnnotator.model self) = "en_core_web_sm".
Proof.
  apply (init_both_flags_pass_through Fixture.spacy 1 None "en_core_web_sm"
           (Fixture.start true)
           (mkLanguage "en_core_web_sm" tt SpacyTokenizer)
           (after (Fixture.start true)
              (Fixture.mkWorld ["en_core_web_sm"] ["en_core_web_sm"] true)
              [EvLoad "en_core_web_sm" [];
               EvWarning "Spacy models 'en_core_web_sm' not found.  Downloading and installing.";
               EvDownload "en_core_web_sm";
               EvGetPackagePath "en_core_web_sm";
               EvLink "en_core_web_sm" "en_core_web_sm" "site-packages/en_core_web_sm";
               EvLoad "en_core_web_sm" []])
           (SpacyAnnotator.mkSelf (mkLanguage "en_core_web_sm" tt SpacyTokenizer)));
    reflexivity.
Defined.

(** * Further properties *)

(** ** The tokenizers on composed and on space-free input *)

Lemma split_app sep s1 s2 :
  PyStr.split sep (s1 ++ String sep s2)%string = PyStr.split sep s1 ++ PyStr.split sep s2.
Proof.
  induction s1 as [|c s1 IH]; simpl.
  - by rewrite Ascii.eqb_refl.
  - destruct (Ascii.eqb c sep); [by rewrite IH|].
    rewrite IH. pose proof (PyStrFacts.split_nonempty sep s1) as Hne.
    by destruct (PyStr.split sep s1).
Qed.

Lemma split_no_sep_single sep s : PyStr.count sep s = 0 → PyStr.split sep s = [s].
Proof.
  induction s as [|c s IH]; simpl; [done|].
  destruct (Ascii.eqb c sep); [done|]. intros H. by rewrite IH.
Qed.

(** X3.  The whitespace tokenizer works segment by segment: when it makes a
    document of each of two texts, it makes one of the two put together
    with one space between them, and its tokens are the tokens of the first
    followed by the tokens of the second; when it raises on one of the two,
    it raises on the two put together. *)
Theorem WhitespaceTokenizer_concat {Vocab} (self : WhitespaceTokenizer Vocab) (s1 s2 : string) :
  match WhitespaceTokenizer_call self s1, WhitespaceTokenizer_call self s2 with
  | Return d1, Return d2 =>
      ∃ d, WhitespaceTokenizer_call self (s1 ++ " " ++ s2)%string = Return d
         ∧ doc_tokens d = doc_tokens d1 ++ doc_tokens d2
  | _, _ => raises (WhitespaceTokenizer_call self (s1 ++ " " ++ s2)%string)
  end.
Proof.
  change (" " ++ s2)%string with (String " " s2).
  assert (PyStr.split " " (s1 ++ String " " s2)%string
          = PyStr.split " " s1 ++ PyStr.split " " s2) as Hsplit by apply split_app.
  destruct (decide ("" ∈ PyStr.split " " s1)) as [H1|H1].
  { destruct (Doc_init_empty_word (ws_vocab self) _ H1) as [m1 Hm1].
    destruct (Doc_init_empty_word (ws_vocab self) (PyStr.split " " (s1 ++ String " " s2)%string))
      as [m Hm]; [rewrite Hsplit; apply elem_of_app; tauto|].
    unfold WhitespaceTokenizer_call. by rewrite Hm1, Hm. }
  destruct (WhitespaceTokenizer_returns self s1 H1) as (d1 & -> & _ & Ht1).
  destruct (decide ("" ∈ PyStr.split " " s2)) as [H2|H2].
  { destruct (Doc_init_empty_word (ws_vocab self) _ H2) as [m2 Hm2].
    destruct (Doc_init_empty_word (ws_vocab self) (PyStr.split " " (s1 ++ String " " s2)%string))
      as [m Hm]; [rewrite Hsplit; apply elem_of_app; tauto|].
    unfold WhitespaceTokenizer_call. by rewrite Hm2, Hm. }
  destruct (WhitespaceTokenizer_returns self s2 H2) as (d2 & -> & _ & Ht2).
  destruct (WhitespaceTokenizer_returns self (s1 ++ String " " s2)%string) as (d & Hd & _ & Ht).
  { rewrite Hsplit, elem_of_app. tauto. }
  exists d. split; [done|]. by rewrite Ht, Ht1, Ht2, Hsplit, fmap_app.
Qed.

(** X4.  A non-empty text that contains no space is one token: the text
    itself, owning a trailing space. *)
Theorem WhitespaceTokenizer_single_token {Vocab} (self : WhitespaceTokenizer Vocab) (s : string) :
  s ≠ "" → PyStr.count " " s = 0 →
  ∃ d, WhitespaceTokenizer_call self s = Return d ∧ doc_tokens d = [(s, true)].
Proof.
  intros Hne Hcount.
  destruct (WhitespaceTokenizer_returns self s) as (d & Hd & _ & Ht).
  { rewrite split_no_sep_single by done. intros Hin.
    apply elem_of_cons in Hin as [Hin|Hin]; [congruence|by apply not_elem_of_nil in Hin]. }
  exists d. split; [done|]. by rewrite Ht, split_no_sep_single.
Qed.

Lemma WhitespaceTokenizer_single_token_witness :
  ∃ d, WhitespaceTokenizer_call (mkWhitespaceTokenizer tt) "cat,sat." = Return d
     ∧ doc_tokens d = [("cat,sat.", true)].
Proof.
  apply (WhitespaceTokenizer_single_token (mkWhitespaceTokenizer tt) "cat,sat.").
  - discriminate.
  - reflexivity.
Defined.

(** ** is_package and model_installed on names and later distributions *)

Lemma lower_char_idemp c : PyStr.lower_char (PyStr.lower_char c) = PyStr.lower_char c.
Proof. destruct c as [[] [] [] [] [] [] [] []]; reflexivity. Qed.

Lemma lower_idemp s : PyStr.lower (PyStr.lower s) = PyStr.lower s.
Proof. induction s as [|c s IH]; simpl; [done|]. by rewrite lower_char_idemp, IH. Qed.

Lemma lower_char_hyphen c : Ascii.eqb (PyStr.lower_char c) "-" = Ascii.eqb c "-".
Proof. destruct c as [[] [] [] [] [] [] [] []]; reflexivity. Qed.

Lemma count_hyphen_lower s : PyStr.count "-" (PyStr.lower s) = PyStr.count "-" s.
Proof. induction s as [|c s IH]; simpl; [done|]. by rewrite lower_char_hyphen, IH. Qed.

Lemma count_hyphen_replace s : PyStr.count "-" (PyStr.replace "-" "_" s) = 0.
Proof.
  induction s as [|c s IH]; simpl; [done|]. rewrite IH.
  by destruct (Ascii.eqb_spec c "-") as [->|Hc]; [|rewrite (proj2 (Ascii.eqb_neq _ _) Hc)].
Qed.

(** X5.  [is_package] does not look at the case of letters: lower-casing the
    name, the distribution names, or both, does not change its answer. *)
Theorem is_package_case_insensitive (packages : list string) (name : string) :
  SpacyAnnotator.is_package packages name
  = SpacyAnnotator.is_package (PyStr.lower <$> packages) (PyStr.lower name)
  ∧ SpacyAnnotator.is_package packages name
    = SpacyAnnotator.is_package packages (PyStr.lower name)
  ∧ SpacyAnnotator.is_package packages name
    = SpacyAnnotator.is_package (PyStr.lower <$> packages) name.
Proof.
  unfold SpacyAnnotator.is_package.
  destruct packages as [|p rest]; simpl; by rewrite ?lower_idemp.
Qed.

(** X6.  Only the distribution names have their hyphens replaced, the name
    asked for has not: a name with a hyphen in it is never answered [True],
    whatever is installed. *)
Theorem is_package_hyphen_never_found (packages : list string) (name : string) :
  PyStr.count "-" name ≠ 0 →
  SpacyAnnotator.is_package packages name ≠ Some true.
Proof.
  intros Hname. unfold SpacyAnnotator.is_package.
  destruct packages as [|p rest]; [done|].
  destruct (String.eqb_spec (PyStr.replace "-" "_" (PyStr.lower p)) (PyStr.lower name))
    as [Heq|Hne]; [|done].
  exfalso. apply Hname. rewrite <- count_hyphen_lower, <- Heq. apply count_hyphen_replace.
Qed.

Lemma is_package_hyphen_never_found_witness :
  SpacyAnnotator.is_package ["spacy-lookups-data"; "pip"] "spacy-lookups-data" ≠ Some true.
Proof.
  apply (is_package_hyphen_never_found ["spacy-lookups-data"; "pip"] "spacy-lookups-data").
  vm_compute. discriminate.
Defined.

(** X7.  With a data directory in place, a model that is neither an entry
    of it nor an existing path is reported as not installed as soon as the
    first installed distribution is another one, whatever distributions
    follow it. *)
Theorem model_installed_first_package_only (fs : SpacyAnnotator.FileSystem)
    (package : string) (rest : list string) (name : string) d :
  SpacyAnnotator.get_data_path fs = Some d →
  SpacyAnnotator.exists_ fs d = true →
  SpacyAnnotator.is_dir fs d = true →
  name ∉ SpacyAnnotator.Path_name <$> SpacyAnnotator.iterdir fs d →
  SpacyAnnotator.exists_ fs name = false →
  normalized package ≠ PyStr.lower name →
  SpacyAnnotator.model_installed fs (package :: rest) name = Return false.
Proof.
  intros Hd Hex Hdir Hin Hpath Hne.
  unfold SpacyAnnotator.model_installed, SpacyAnnotator.Path_iterdir.
  rewrite Hd, Hex, Hdir. simpl. rewrite bool_decide_eq_false_2 by (by rewrite elem_of_list_to_set).
  unfold SpacyAnnotator.is_package.
  rewrite (proj2 (String.eqb_neq _ _)) by done. simpl. by rewrite Hpath.
Qed.

Lemma model_installed_first_package_only_witness :
  SpacyAnnotator.model_installed Fixture.fs ["pip"; "de-core-news-sm"] "de_core_news_sm"
  = Return false.
Proof.
  apply (model_installed_first_package_only Fixture.fs "pip" ["de-core-news-sm"]
           "de_core_news_sm" "/usr/lib/spacy/data"); try reflexivity.
  - apply (bool_decide_eq_false_1 _). vm_compute. reflexivity.
  - vm_compute. discriminate.
Defined.

(** ** load, dump and __init__ *)

Section Cache.

Context {Vocab W : Type}.
Variable E : Spacy Vocab W.

Ltac run_load :=
  unfold SpacyAnnotator.load, try_except, bind, ret, warning, ext; simpl.

Lemma load_cached_vocab self (s : State W) data w1 :
  load_caches E (build_cached_path E "vocab.pkl") (world s) = (Return (Some data), w1) →
  data ≠ "" →
  SpacyAnnotator.load E self s
  = bind (ext (EvFromBytes data) (from_bytes E (vocab (SpacyAnnotator.model self)) data))
      (λ v, ret (SpacyAnnotator.set_vocab self v))
      (after s w1 [EvLoadCaches (build_cached_path E "vocab.pkl")]).
Proof.
  intros Hc Hd. unfold SpacyAnnotator.load, try_except.
  unfold bind at 1. unfold ext at 1. rewrite Hc. simpl.
  assert (PyStr.str_truthy data = true) as ->; [|done].
  unfold PyStr.str_truthy. by apply negb_true_iff, String.eqb_neq.
Qed.

(** X8.  A cache that cannot be read does not stop [load]: whatever
    exception [load_caches] raises, [load] logs its arguments as a warning
    and returns the annotator as it was, without calling [from_bytes]. *)
Theorem load_survives_unreadable_cache self (s : State W) e w1 :
  load_caches E (build_cached_path E "vocab.pkl") (world s) = (Raise e, w1) →
  SpacyAnnotator.load E self s
  = (Return self,
     after s w1 [EvLoadCaches (build_cached_path E "vocab.pkl");
                 EvWarning (SpacyAnnotator.exn_args e)]).
Proof. intros Hc. run_load. rewrite Hc. simpl. unfold after. by rewrite <- app_assoc. Qed.

(** X9.  A cache that is read but that spaCy cannot decode does stop
    [load]: [from_bytes] is called outside the [try], so what it raises is
    raised by [load], with no warning. *)
Theorem load_raises_on_undecodable_cache self (s : State W) data w1 e w2 :
  load_caches E (build_cached_path E "vocab.pkl") (world s) = (Return (Some data), w1) →
  data ≠ "" →
  from_bytes E (vocab (SpacyAnnotator.model self)) data w1 = (Raise e, w2) →
  SpacyAnnotator.load E self s
  = (Raise e,
     after s w2 [EvLoadCaches (build_cached_path E "vocab.pkl"); EvFromBytes data]).
Proof.
  intros Hc Hd Hf. rewrite (load_cached_vocab _ _ data w1) by done.
  unfold bind, ext, after. simpl. rewrite Hf. simpl. by rewrite <- app_assoc.
Qed.

(** X10.  An empty cache, [None] or no bytes at all, is no cache: [load]
    returns the annotator as it was and [from_bytes] is not called. *)
Theorem load_skips_empty_cache self (s : State W) cached w1 :
  load_caches E (build_cached_path E "vocab.pkl") (world s) = (Return cached, w1) →
  cached = None ∨ cached = Some "" →
  SpacyAnnotator.load E self s
  = (Return self, after s w1 [EvLoadCaches (build_cached_path E "vocab.pkl")]).
Proof. intros Hc [-> | ->]; run_load; by rewrite Hc. Qed.

Lemma load_frame self (s : State W) self' s' :
  SpacyAnnotator.load E self s = (Return self', s') →
  tokenizer (SpacyAnnotator.model self') = tokenizer (SpacyAnnotator.model self)
  ∧ meta_name (SpacyAnnotator.model self') = meta_name (SpacyAnnotator.model self)
  ∧ heap s' = heap s.
Proof.
  run_load.
  destruct (load_caches E _ (world s)) as [[[data|]|e|] w1]; simpl.
  - destruct (PyStr.str_truthy data); simpl.
    + destruct (from_bytes E _ data w1) as [[v|e|] w2]; simpl; [|done..].
      by intros [= <- <-].
    + by intros [= <- <-].
  - by intros [= <- <-].
  - by intros [= <- <-].
  - done.
Qed.


(** *** __init__ *)

(** X12.  Without the pre-tokenized flag the constructor, once the pipeline
    is loaded and the cache read, returns with the whitespace tokenizer over
    the vocabulary of its pipeline when the whitespace flag is set, and with
    the annotator exactly as [load] left it, the tokenizer of the loaded
    pipeline included, when no flag is set. *)
Theorem init_without_pre_tokenized fuel disable (use_whitespace : bool) lang
    (s : State W) nlp s1 self0 s2 :
  SpacyAnnotator.load_lang_model E fuel lang (PyStr.or_empty disable) s = (Return nlp, s1) →
  SpacyAnnotator.load E (SpacyAnnotator.mkSelf nlp) s1 = (Return self0, s2) →
  ∃ self,
    SpacyAnnotator.__init__ E fuel disable false use_whitespace lang s = (Return self, s2)
    ∧ vocab (SpacyAnnotator.model self) = vocab (SpacyAnnotator.model self0)
    ∧ meta_name (SpacyAnnotator.model self) = meta_name (SpacyAnnotator.model self0)
    ∧ (if use_whitespace
       then tokenizer (SpacyAnnotator.model self)
            = UseWhitespace (mkWhitespaceTokenizer (vocab (SpacyAnnotator.model self0)))
       else self = self0 ∧ tokenizer (SpacyAnnotator.model self) = tokenizer nlp).
Proof.
  intros Hload Hvocab. unfold SpacyAnnotator.__init__, bind, ret.
  rewrite Hload, Hvocab. eexists. split; [reflexivity|].
  destruct use_whitespace; simpl; [done|]. split_and!; try done.
  by destruct (load_frame _ _ _ _ Hvocab).
Qed.

(** X13.  A cache that is read but that spaCy cannot decode makes the
    construction fail: with the pipeline loaded, whatever [from_bytes]
    raises on the cached bytes is raised by the constructor, whatever the
    flags. *)
Theorem init_raises_on_undecodable_cache fuel disable (pre_tokenized use_whitespace : bool)
    lang (s : State W) nlp s1 data w1 e w2 :
  SpacyAnnotator.load_lang_model E fuel lang (PyStr.or_empty disable) s = (Return nlp, s1) →
  load_caches E (build_cached_path E "vocab.pkl") (world s1) = (Return (Some data), w1) →
  data ≠ "" →
  from_bytes E (vocab nlp) data w1 = (Raise e, w2) →
  SpacyAnnotator.__init__ E fuel disable pre_tokenized use_whitespace lang s
  = (Raise e,
     after s1 w2 [EvLoadCaches (build_cached_path E "vocab.pkl"); EvFromBytes data]).
Proof.
  intros Hload Hc Hd Hf. unfold SpacyAnnotator.__init__. unfold bind at 1. rewrite Hload.
  unfold bind at 1. rewrite (load_cached_vocab _ _ data w1) by done.
  unfold bind, ext, after. simpl. rewrite Hf. simpl. by rewrite <- app_assoc.
Qed.

(** *** dump *)

Variable to_bytes : Vocab → string.
Variable dump_caches : Path → string → W → outcome unit * W.

(** X14.  [dump] and [load] agree on the cache file: when the cache gives
    back what was written to a path, [from_bytes] undoes [to_bytes], and the
    dumped vocabulary does not serialize to no bytes at all, a [load] in the
    world a [dump] left gives the annotator the dumped vocabulary. *)
Theorem dump_load_round_trip self fresh_self w w1 (s : State W) :
  (∀ path data w w',
     dump_caches path data w = (Return tt, w') →
     load_caches E path w' = (Return (Some data), w')) →
  (∀ v0 v w, from_bytes E v0 (to_bytes v) w = (Return v, w)) →
  to_bytes (vocab (SpacyAnnotator.model self)) ≠ "" →
  SpacyAnnotator.dump E to_bytes dump_caches self w = (Return tt, w1) →
  world s = w1 →
  (SpacyAnnotator.load E fresh_self s).1
  = Return (SpacyAnnotator.set_vocab fresh_self (vocab (SpacyAnnotator.model self)))
  ∧ world (SpacyAnnotator.load E fresh_self s).2 = w1.
Proof.
  intros Hcache Hbytes Hne Hdump Hs. unfold SpacyAnnotator.dump in Hdump.
  apply Hcache in Hdump. rewrite <- Hs in Hdump.
  rewrite (load_cached_vocab _ _ _ _ Hdump Hne).
  unfold bind, ext, ret. simpl. rewrite Hbytes. simpl. by rewrite Hs.
Qed.

End Cache.

Lemma load_survives_unreadable_cache_witness :
  SpacyAnnotator.load Fixture.spacy
    (SpacyAnnotator.mkSelf (mkLanguage "en_core_web_sm" tt SpacyTokenizer)) (Fixture.start true)
  = (Return (SpacyAnnotator.mkSelf (mkLanguage "en_core_web_sm" tt SpacyTokenizer)),
     mkState (Fixture.mkWorld [] [] true)
       [EvLoadCaches "caches/vocab.pkl";
        EvWarning "No such file or directory: 'caches/vocab.pkl'"]
       ∅).
Proof.
  apply (load_survives_unreadable_cache Fixture.spacy
           (SpacyAnnotator.mkSelf (mkLanguage "en_core_web_sm" tt SpacyTokenizer))
           (Fixture.start true)
           (OSError "No such file or directory: 'caches/vocab.pkl'")
           (Fixture.mkWorld [] [] true)).
  reflexivity.
Defined.

Lemma load_raises_on_undecodable_cache_witness :
  SpacyAnnotator.load CacheFixture.spacy (CacheFixture.annotator "")
    (CacheFixture.on {[ "caches/vocab.pkl" := "garbage" ]})
  = (Raise (Exception "ValueError" "not a vocabulary"),
     mkState {[ "caches/vocab.pkl" := "garbage" ]}
       [EvLoadCaches "caches/vocab.pkl"; EvFromBytes "garbage"] ∅).
Proof.
  apply (load_raises_on_undecodable_cache CacheFixture.spacy (CacheFixture.annotator "")
           (CacheFixture.on {[ "caches/vocab.pkl" := "garbage" ]})
           "garbage" {[ "caches/vocab.pkl" := "garbage" ]}).
  - vm_compute. reflexivity.
  - discriminate.
  - reflexivity.
Defined.

Lemma load_skips_empty_cache_witness :
  SpacyAnnotator.load CacheFixture.spacy (CacheFixture.annotator "the,cat")
    (CacheFixture.on {[ "caches/vocab.pkl" := "" ]})
  = (Return (CacheFixture.annotator "the,cat"),
     mkState {[ "caches/vocab.pkl" := "" ]} [EvLoadCaches "caches/vocab.pkl"] ∅).
Proof.
  apply (load_skips_empty_cache CacheFixture.spacy (CacheFixture.annotator "the,cat")
           (CacheFixture.on {[ "caches/vocab.pkl" := "" ]})
           (Some "") {[ "caches/vocab.pkl" := "" ]}).
  - vm_compute. reflexivity.
  - right. reflexivity.
Defined.


Lemma init_without_pre_tokenized_witness :
  ∃ self,
    SpacyAnnotator.__init__ CacheFixture.spacy 1 None false true "en_core_web_sm"
      (CacheFixture.on {[ "caches/vocab.pkl" := "v1:the,cat" ]})
    = (Return self,
       mkState {[ "caches/vocab.pkl" := "v1:the,cat" ]}
         [EvLoad "en_core_web_sm" []; EvLoadCaches "caches/vocab.pkl";
          EvFromBytes "v1:the,cat"] ∅)
    ∧ vocab (SpacyAnnotator.model self) = "the,cat"
    ∧ meta_name (SpacyAnnotator.model self) = "en_core_web_sm"
    ∧ tokenizer (SpacyAnnotator.model self)
      = UseWhitespace (mkWhitespaceTokenizer "the,cat").
Proof.
  apply (init_without_pre_tokenized CacheFixture.spacy 1 None true "en_core_web_sm"
           (CacheFixture.on {[ "caches/vocab.pkl" := "v1:the,cat" ]})
           (mkLanguage "en_core_web_sm" "" SpacyTokenizer)
           (mkState {[ "caches/vocab.pkl" := "v1:the,cat" ]} [EvLoad "en_core_web_sm" []] ∅)
           (CacheFixture.annotator "the,cat")).
  - reflexivity.
  - vm_compute. reflexivity.
Defined.

Lemma init_raises_on_undecodable_cache_witness :
  SpacyAnnotator.__init__ CacheFixture.spacy 1 None true false "en_core_web_sm"
    (CacheFixture.on {[ "caches/vocab.pkl" := "garbage" ]})
  = (Raise (Exception "ValueError" "not a vocabulary"),
     mkState {[ "caches/vocab.pkl" := "garbage" ]}
       [EvLoad "en_core_web_sm" []; EvLoadCaches "caches/vocab.pkl"; EvFromBytes "garbage"] ∅).
Proof.
  apply (init_raises_on_undecodable_cache CacheFixture.spacy 1 None true false "en_core_web_sm"
           (CacheFixture.on {[ "caches/vocab.pkl" := "garbage" ]})
           (mkLanguage "en_core_web_sm" "" SpacyTokenizer)
           (mkState {[ "caches/vocab.pkl" := "garbage" ]} [EvLoad "en_core_web_sm" []] ∅)
           "garbage" {[ "caches/vocab.pkl" := "garbage" ]}).
  - reflexivity.
  - vm_compute. reflexivity.
  - discriminate.
  - reflexivity.
Defined.

Lemma dump_load_round_trip_witness :
  let w1 : gmap string string := {[ "caches/vocab.pkl" := "v1:the,cat" ]} in
  (SpacyAnnotator.load CacheFixture.spacy (CacheFixture.annotator "") (CacheFixture.on w1)).1
  = Return (SpacyAnnotator.set_vocab (CacheFixture.annotator "") "the,cat")
  ∧ world (SpacyAnnotator.load CacheFixture.spacy (CacheFixture.annotator "")
             (CacheFixture.on w1)).2 = w1.
Proof.
  intros w1.
  apply (dump_load_round_trip CacheFixture.spacy CacheFixture.to_bytes CacheFixture.dump_caches
           (CacheFixture.annotator "the,cat") (CacheFixture.annotator "") ∅ w1
           (CacheFixture.on w1)).
  - intros path data w w' [= <-]. unfold load_caches. simpl. unfold CacheFixture.load_caches.
    by rewrite lookup_insert_eq.
  - intros v0 v w. reflexivity.
  - discriminate.
  - vm_compute. reflexivity.
  - reflexivity.
Defined.

(** ** What load_lang_model calls *)

Section LoaderCalls.

Context {Vocab W : Type}.
Variable E : Spacy Vocab W.

Ltac loader_leaf :=
  eexists; split_and!;
    [ rewrite <- ?app_assoc; simpl; reflexivity
    | done
    | unfold downloads; simpl; lia
    | repeat constructor; done ].

Lemma load_or_download_events lang disable (s : State W) :
  PyStr.contains "coref" lang = false →
  let r := SpacyAnnotator.load_or_download E lang disable s in
  ∃ evs, trace r.2 = trace s ++ evs ∧ heap r.2 = heap s
       ∧ (downloads evs ≤ 1)%nat ∧ Forall (loader_event disable) evs.
Proof.
  intros Hstd.
  unfold SpacyAnnotator.load_or_download, SpacyAnnotator.download_and_link,
    try_except, bind, ret, raise, warning, ext; simpl.
  destruct (spacy_load E lang disable (world s)) as [[nlp|e|] w1]; simpl; [loader_leaf| |loader_leaf].
  destruct (isinstance_OSError e); simpl; [|loader_leaf].
  destruct (spacy_download E lang w1) as [[[]|e'|] w2]; simpl; [|loader_leaf..].
  destruct (get_package_path E lang w2) as [[p|e'|] w3]; simpl; [|loader_leaf..].
  destruct (link E lang lang p w3) as [[[]|e'|] w4]; simpl; [|loader_leaf..].
  destruct (spacy_load E lang disable w4) as [o w5]; simpl. loader_leaf.
Qed.

Lemma downloads_load_cons name d evs : downloads (EvLoad name d :: evs) = downloads evs.
Proof. unfold downloads. by rewrite filter_cons. Qed.

Lemma load_lang_model_events fuel lang disable (s : State W) :
  let r := SpacyAnnotator.load_lang_model E fuel lang disable s in
  ∃ evs, trace r.2 = trace s ++ evs ∧ heap r.2 = heap s
       ∧ (downloads evs ≤ 1)%nat ∧ Forall (loader_event disable) evs.
Proof.
  revert lang s. induction fuel as [|fuel IH]; intros lang s; simpl.
  { exists []. split_and!; [by rewrite app_nil_r|done|unfold downloads; simpl; lia|done]. }
  destruct (PyStr.contains "coref" lang) eqn:Hco; [|by apply load_or_download_events].
  unfold try_except, ext, raise. simpl.
  destruct (spacy_load E lang disable (world s)) as [[nlp|e|] w1]; simpl; [loader_leaf| |loader_leaf].
  destruct (PyStr.item0 (PyStr.split "_" lang)) as [base|]; [|loader_leaf].
  destruct (IH base (mkState w1 (trace s ++ [EvLoad lang disable]) (heap s)))
    as (evs & Htr & Hheap & Hd & Hev).
  exists (EvLoad lang disable :: evs). split_and!.
  - rewrite Htr. simpl. by rewrite <- app_assoc.
  - by rewrite Hheap.
  - by rewrite downloads_load_cons.
  - by constructor.
Qed.

(** X15.  Whatever the identifier, the world and the depth of calls, one
    call of the loader attempts at most one download. *)
Theorem load_lang_model_downloads_at_most_once fuel lang disable (s : State W) :
  ∃ evs,
    trace (SpacyAnnotator.load_lang_model E fuel lang disable s).2 = trace s ++ evs
    ∧ (downloads evs ≤ 1)%nat.
Proof.
  destruct (load_lang_model_events fuel lang disable s) as (evs & Htr & _ & Hd & _).
  by exists evs.
Qed.

(** X16.  Whatever happens, the loader only calls spaCy's load, download,
    path lookup and link, and logs warnings: every load is made with the
    caller's list of disabled stages, unchanged; a download, a lookup or a
    link is only made for an identifier without the marker, the link under
    the identifier's own name; it never runs a pipeline, never reads the
    cache, and leaves the heap alone. *)
Theorem load_lang_model_calls fuel lang disable (s : State W) :
  ∃ evs,
    trace (SpacyAnnotator.load_lang_model E fuel lang disable s).2 = trace s ++ evs
    ∧ Forall (loader_event disable) evs
    ∧ heap (SpacyAnnotator.load_lang_model E fuel lang disable s).2 = heap s.
Proof.
  destruct (load_lang_model_events fuel lang disable s) as (evs & Htr & Hheap & _ & Hev).
  by exists evs.
Qed.

(** X17.  A model that loads is loaded once and returned, with or without
    the marker in its identifier: no warning, no download, no second
    load. *)
Theorem load_lang_model_loaded_once fuel lang disable (s : State W) nlp w1 :
  spacy_load E lang disable (world s) = (Return nlp, w1) →
  SpacyAnnotator.load_lang_model E (S fuel) lang disable s
  = (Return nlp, after s w1 [EvLoad lang disable]).
Proof.
  intros Hload. destruct (PyStr.contains "coref" lang) eqn:Hco.
  - by apply load_lang_model_coref_loaded.
  - rewrite load_lang_model_standard by done. by apply load_or_download_loaded.
Qed.

End LoaderCalls.

Lemma load_lang_model_loaded_once_witness :
  SpacyAnnotator.load_lang_model Fixture.spacy 1 "en_coref_md" ["parser"; "ner"]
    (mkState (Fixture.mkWorld ["en_coref_md"] [] false) [] ∅)
  = (Return (mkLanguage "en_coref_md" tt SpacyTokenizer),
     mkState (Fixture.mkWorld ["en_coref_md"] [] false)
       [EvLoad "en_coref_md" ["parser"; "ner"]] ∅).
Proof.
  apply (load_lang_model_loaded_once Fixture.spacy 0 "en_coref_md" ["parser"; "ner"]
           (mkState (Fixture.mkWorld ["en_coref_md"] [] false) [] ∅)
           (mkLanguage "en_coref_md" tt SpacyTokenizer)
           (Fixture.mkWorld ["en_coref_md"] [] false)).
  reflexivity.
Defined.

(** ** More on remove_stopwords *)

Section StopwordsMore.

Context {Vocab W : Type}.
Variable E : Spacy Vocab W.
Variable STOP_WORDS : gset string.

(** X18.  With a non-empty token list the sentence plays no part: whatever
    is passed as [sentence_str], the pipeline is not run, the answer is the
    same, and the state is left exactly as it was. *)
Theorem remove_stopwords_ignores_sentence self l toks (use_lemma : bool) (s : State W) :
  heap s !! l = Some toks → toks ≠ [] →
  ∀ sentence_str,
    SpacyAnnotator.remove_stopwords E STOP_WORDS self sentence_str (Some l) use_lemma s
    = SpacyAnnotator.remove_stopwords E STOP_WORDS self None (Some l) use_lemma s
    ∧ (SpacyAnnotator.remove_stopwords E STOP_WORDS self sentence_str (Some l) use_lemma s).2 = s.
Proof.
  intros Hl Hne sentence_str.
  by rewrite !(remove_stopwords_given E STOP_WORDS self _ l toks use_lemma s Hl Hne).
Qed.

(** X19.  On a sentence alone, [remove_stopwords] is [process_text]
    followed by the filter: it makes the same single call of the pipeline,
    returns the filtered document when the pipeline returns one, and raises
    what the pipeline raises. *)
Theorem remove_stopwords_after_process_text self str tokens (use_lemma : bool) (s : State W) :
  absent_or_empty (heap s) tokens → str ≠ "" →
  let p := SpacyAnnotator.process_text E self str s in
  let r := SpacyAnnotator.remove_stopwords E STOP_WORDS self (Some str) tokens use_lemma s in
  r.1 = match p.1 with
        | Return doc => Return (stopwords_removed STOP_WORDS use_lemma doc)
        | Raise e => Raise e
        | Diverge => Diverge
        end
  ∧ trace r.2 = trace p.2 ∧ world r.2 = world p.2.
Proof.
  intros Habs Hstr p r. subst p r. unfold SpacyAnnotator.process_text.
  destruct (nlp_call E (SpacyAnnotator.model self) str (world s)) as [[doc|e|] w'] eqn:Hcall.
  - rewrite (remove_stopwords_sentence E STOP_WORDS self str tokens use_lemma s doc w')
      by done.
    unfold ext. by rewrite Hcall.
  - unfold SpacyAnnotator.remove_stopwords, SpacyAnnotator.tokens_truthy,
      bind, ret, deref, ext.
    assert (PyStr.str_truthy str = true) as Ht.
    { unfold PyStr.str_truthy. by apply negb_true_iff, String.eqb_neq. }
    destruct tokens as [l|]; simpl in Habs; [rewrite Habs|]; simpl;
      by rewrite Ht, Hcall.
  - unfold SpacyAnnotator.remove_stopwords, SpacyAnnotator.tokens_truthy,
      bind, ret, deref, ext.
    assert (PyStr.str_truthy str = true) as Ht.
    { unfold PyStr.str_truthy. by apply negb_true_iff, String.eqb_neq. }
    destruct tokens as [l|]; simpl in Habs; [rewrite Habs|]; simpl;
      by rewrite Ht, Hcall.
Qed.

Lemma chosen_not_stop_word (use_lemma : bool) t :
  ¬ removed STOP_WORDS t → chosen use_lemma t ∉ STOP_WORDS.
Proof. unfold removed, chosen. destruct use_lemma; tauto. Qed.

(** X20.  What [remove_stopwords] joins are attributes of the given tokens,
    in their order and none added (a sublist of the chosen attributes), and
    none of them is a stop word. *)
Theorem remove_stopwords_pieces self sentence_str l toks (use_lemma : bool) (s : State W) :
  heap s !! l = Some toks → toks ≠ [] →
  ∃ pieces,
    (SpacyAnnotator.remove_stopwords E STOP_WORDS self sentence_str (Some l) use_lemma s).1
    = Return (PyStr.join " " pieces)
    ∧ pieces `sublist_of` (chosen use_lemma <$> toks)
    ∧ Forall (λ piece, piece ∉ STOP_WORDS) pieces.
Proof.
  intros Hl Hne.
  rewrite (remove_stopwords_given E STOP_WORDS self _ l toks use_lemma s Hl Hne).
  exists (chosen use_lemma <$> filter (λ t, ¬ removed STOP_WORDS t) toks). split_and!.
  - done.
  - apply fmap_sublist, sublist_filter.
  - apply Forall_fmap, Forall_forall. intros t Ht.
    apply list_elem_of_filter in Ht as [Ht _]. by apply chosen_not_stop_word.
Qed.

(** X21.  A token that is punctuation or a stop word (by text or by lemma)
    leaves no trace: wherever it stands in the list, the comprehension gives
    what it gives without it. *)
Theorem comprehension_drops_removed attr before t after_ :
  removed STOP_WORDS t →
  SpacyAnnotator.comprehension STOP_WORDS attr (before ++ t :: after_) []
  = SpacyAnnotator.comprehension STOP_WORDS attr (before ++ after_) [].
Proof.
  intros Hr. rewrite !comprehension_filter. simpl.
  rewrite !filter_app, filter_cons. by rewrite decide_False by tauto.
Qed.

End StopwordsMore.

Lemma remove_stopwords_ignores_sentence_witness :
  let s := mkState (Fixture.mkWorld [] [] false) []
             {[ 1%positive := Fixture.annotate <$> ["the"; "cat"] ]} in
  let self := SpacyAnnotator.mkSelf (mkLanguage "en_core_web_sm" tt SpacyTokenizer) in
  SpacyAnnotator.remove_stopwords Fixture.spacy Fixture.STOP_WORDS self
    (Some "a dog barked") (Some 1%positive) true s
  = SpacyAnnotator.remove_stopwords Fixture.spacy Fixture.STOP_WORDS self
      None (Some 1%positive) true s
  ∧ (SpacyAnnotator.remove_stopwords Fixture.spacy Fixture.STOP_WORDS self
       (Some "a dog barked") (Some 1%positive) true s).2 = s.
Proof.
  intros s self.
  apply (remove_stopwords_ignores_sentence Fixture.spacy Fixture.STOP_WORDS self 1%positive
           (Fixture.annotate <$> ["the"; "cat"]) true s).
  - vm_compute. reflexivity.
  - discriminate.
Defined.

Lemma remove_stopwords_after_process_text_witness :
  let self := SpacyAnnotator.mkSelf (mkLanguage "en_core_web_sm" tt SpacyTokenizer) in
  let p := SpacyAnnotator.process_text Fixture.spacy self "The cat sat ." (Fixture.start true) in
  let r := SpacyAnnotator.remove_stopwords Fixture.spacy Fixture.STOP_WORDS self
             (Some "The cat sat .") None false (Fixture.start true) in
  r.1 = match p.1 with
        | Return doc => Return (stopwords_removed Fixture.STOP_WORDS false doc)
        | Raise e => Raise e
        | Diverge => Diverge
        end
  ∧ trace r.2 = trace p.2 ∧ world r.2 = world p.2.
Proof.
  intros self.
  apply (remove_stopwords_after_process_text Fixture.spacy Fixture.STOP_WORDS self
           "The cat sat ." None false (Fixture.start true)).
  - exact I.
  - discriminate.
Defined.

Lemma remove_stopwords_pieces_witness :
  let toks := Fixture.annotate <$> ["The"; "cat"; ","; "of"; "course"] in
  let s := mkState (Fixture.mkWorld [] [] false) [] {[ 1%positive := toks ]} in
  ∃ pieces,
    (SpacyAnnotator.remove_stopwords Fixture.spacy Fixture.STOP_WORDS
       (SpacyAnnotator.mkSelf (mkLanguage "en_core_web_sm" tt SpacyTokenizer))
       None (Some 1%positive) false s).1
    = Return (PyStr.join " " pieces)
    ∧ pieces `sublist_of` (chosen false <$> toks)
    ∧ Forall (λ piece, piece ∉ Fixture.STOP_WORDS) pieces.
Proof.
  intros toks s.
  apply (remove_stopwords_pieces Fixture.spacy Fixture.STOP_WORDS
           (SpacyAnnotator.mkSelf (mkLanguage "en_core_web_sm" tt SpacyTokenizer))
           None 1%positive toks false s).
  - vm_compute. reflexivity.
  - discriminate.
Defined.

Lemma comprehension_drops_removed_witness :
  SpacyAnnotator.comprehension Fixture.STOP_WORDS "text"
    ([Fixture.annotate "cat"] ++ Fixture.annotate "," :: [Fixture.annotate "sat"]) []
  = SpacyAnnotator.comprehension Fixture.STOP_WORDS "text"
      ([Fixture.annotate "cat"] ++ [Fixture.annotate "sat"]) [].
Proof.
  apply (comprehension_drops_removed Fixture.STOP_WORDS "text"
           [Fixture.annotate "cat"] (Fixture.annotate ",") [Fixture.annotate "sat"]).
  left. reflexivity.
Defined.

Example remove_stopwords_capitalised :
  (SpacyAnnotator.remove_stopwords Fixture.spacy Fixture.STOP_WORDS
     (SpacyAnnotator.mkSelf (mkLanguage "en_core_web_sm" tt SpacyTokenizer))
     (Some "The cat sat .") None false (Fixture.start true)).1
  = Return "cat sat".
Proof. vm_compute. reflexivity. Qed.
